(** * TicketsExtraction/extract.py: a shallow embedding

    The script pages through a Jira search endpoint, flattens every issue
    into one row of 26 columns and writes the rows to a CSV file.  This file
    embeds the pagination client [fetch_jira_issues], the field normalizers
    ([process_comments], [process_issue_links], [process_subtasks],
    [process_fix_versions], [process__versions]), the work-time aggregator
    ([convert_seconds_to_hm], [calculer_temps_par_collaborateur]) and the
    per-issue body of [save_to_csv], and proves the properties the
    specification states about them.

    Python is dynamically typed: the values below are the values that
    [json.loads] can produce (without floats), every operation that Python
    would reject at run time returns [Raise] with the exception Python
    raises, and strings are sequences of characters with code points below
    256. *)

From Stdlib Require Import ZArith List String Ascii Bool Lia.
From Stdlib Require Import DecimalString DecimalZ Sorted.
Import ListNotations.

Set Warnings "-register-all".

Open Scope string_scope.
Open Scope Z_scope.

(** ** Python values and exceptions *)

Inductive exn : Type :=
| AttributeError
| TypeError
| KeyError.

Inductive result (A : Type) : Type :=
| Ok (a : A)
| Raise (e : exn).

Arguments Ok {A} a.
Arguments Raise {A} e.

Definition bind {A B : Type} (r : result A) (k : A -> result B) : result B :=
  match r with
  | Ok a => k a
  | Raise e => Raise e
  end.

Notation "x <- r ;; k" := (bind r (fun x => k))
  (at level 61, r at next level, right associativity).

(** A decoded JSON document.  A [VDict] lists the entries of a Python dict in
    insertion order; its keys are distinct, as [json.loads] leaves them. *)
Inductive value : Type :=
| VNone
| VBool (b : bool)
| VInt (z : Z)
| VStr (s : string)
| VList (l : list value)
| VDict (d : list (string * value)).

Definition nl : string := String "010" EmptyString.

(** ** Rendering: [str], [repr] and f-string fields *)

Definition dec (z : Z) : string := NilZero.string_of_int (Z.to_int z).

Definition squote : ascii := "039".
Definition dquote : ascii := "034".
Definition backslash : ascii := "092".

Fixpoint has_char (c : ascii) (s : string) : bool :=
  match s with
  | EmptyString => false
  | String a s' => Ascii.eqb a c || has_char c s'
  end.

Definition hex_digit (n : N) : ascii :=
  nth (N.to_nat n)
      ["0"; "1"; "2"; "3"; "4"; "5"; "6"; "7";
       "8"; "9"; "a"; "b"; "c"; "d"; "e"; "f"]%char "0"%char.

(** What [repr] writes for one character inside the quotes [q]: the quote
    and the backslash are escaped, tab, newline and carriage return have
    their letters, and the characters that are not printable (controls,
    delete, U+0080 to U+00A0, the soft hyphen) are written [\xhh]. *)
Definition repr_char (q c : ascii) : string :=
  let n := N_of_ascii c in
  if Ascii.eqb c q || Ascii.eqb c backslash
  then String backslash (String c EmptyString)
  else if (n =? 9)%N then String backslash "t"
  else if (n =? 10)%N then String backslash "n"
  else if (n =? 13)%N then String backslash "r"
  else if (n <? 32)%N || ((127 <=? n)%N && (n <=? 160)%N) || (n =? 173)%N
  then String backslash
         (String "x" (String (hex_digit (n / 16)) (String (hex_digit (n mod 16)) EmptyString)))
  else String c EmptyString.

Fixpoint repr_chars (q : ascii) (s : string) : string :=
  match s with
  | EmptyString => EmptyString
  | String c s' => repr_char q c ++ repr_chars q s'
  end.

(** [repr] of a str: double quotes when the text has a single quote and no
    double quote, single quotes otherwise. *)
Definition repr_str (s : string) : string :=
  let q := if has_char squote s && negb (has_char dquote s) then dquote else squote in
  String q (repr_chars q s ++ String q EmptyString).

Fixpoint py_repr (v : value) : string :=
  match v with
  | VNone => "None"
  | VBool true => "True"
  | VBool false => "False"
  | VInt z => dec z
  | VStr s => repr_str s
  | VList l => "[" ++ concat ", " (map py_repr l) ++ "]"
  | VDict d =>
      "{" ++ concat ", " (map (fun '(k, x) => repr_str k ++ ": " ++ py_repr x) d) ++ "}"
  end.

(** [str(v)], which is what an f-string field [{v}] inserts. *)
Definition py_str (v : value) : string :=
  match v with
  | VStr s => s
  | _ => py_repr v
  end.

(** ** The operations of Python the script uses *)

(** Truth value: [not v] is [negb (truthy v)]. *)
Definition truthy (v : value) : bool :=
  match v with
  | VNone => false
  | VBool b => b
  | VInt z => negb (z =? 0)
  | VStr s => negb (String.eqb s EmptyString)
  | VList l => match l with [] => false | _ => true end
  | VDict d => match d with [] => false | _ => true end
  end.

Fixpoint lookup (k : string) (d : list (string * value)) : option value :=
  match d with
  | [] => None
  | (k', x) :: d' => if String.eqb k k' then Some x else lookup k d'
  end.

(** [v.get(k, dflt)]: only a dict has the method. *)
Definition get (v : value) (k : string) (dflt : value) : result value :=
  match v with
  | VDict d => Ok (match lookup k d with Some x => x | None => dflt end)
  | _ => Raise AttributeError
  end.

(** [v[k]] for a str key [k]. *)
Definition subscript (v : value) (k : string) : result value :=
  match v with
  | VDict d => match lookup k d with Some x => Ok x | None => Raise KeyError end
  | _ => Raise TypeError
  end.

Fixpoint is_substring (k s : string) : bool :=
  prefix k s ||
  match s with
  | EmptyString => false
  | String _ s' => is_substring k s'
  end.

Definition is_str (k : string) (v : value) : bool :=
  match v with
  | VStr s => String.eqb s k
  | _ => false
  end.

(** [k in v] for a str [k]: a key of a dict, a substring of a str, an
    element of a list. *)
Definition contains (k : string) (v : value) : result bool :=
  match v with
  | VDict d => Ok (match lookup k d with Some _ => true | None => false end)
  | VStr s => Ok (is_substring k s)
  | VList l => Ok (existsb (is_str k) l)
  | _ => Raise TypeError
  end.

Fixpoint chars (s : string) : list value :=
  match s with
  | EmptyString => []
  | String c s' => VStr (String c EmptyString) :: chars s'
  end.

(** What [for x in v] and [extend(v)] run through: the elements of a list,
    the characters of a str, the keys of a dict.  These are also the types
    that have a [len], which is the length of this list. *)
Definition iter (v : value) : result (list value) :=
  match v with
  | VList l => Ok l
  | VStr s => Ok (chars s)
  | VDict d => Ok (map (fun kx => VStr (fst kx)) d)
  | _ => Raise TypeError
  end.

Fixpoint strings_of (l : list value) : result (list string) :=
  match l with
  | [] => Ok []
  | VStr s :: l' => ss <- strings_of l' ;; Ok (s :: ss)
  | _ :: _ => Raise TypeError
  end.

(** [sep.join(v)]: [v] must be iterable and every item a str. *)
Definition join (sep : string) (v : value) : result string :=
  l <- iter v ;;
  ss <- strings_of l ;;
  Ok (concat sep ss).

(** The integer an int or a bool stands for in arithmetic. *)
Definition as_int (v : value) : option Z :=
  match v with
  | VInt z => Some z
  | VBool b => Some (if b then 1 else 0)
  | _ => None
  end.

(** ** Work-time aggregator *)

(** [convert_seconds_to_hm]: Python's [//] and [%] round towards minus
    infinity, as [Z.div] and [Z.modulo] do for a positive divisor. *)
Definition convert_seconds_to_hm (seconds : Z) : string :=
  let hours := seconds / 3600 in
  let minutes := (seconds mod 3600) / 60 in
  dec hours ++ "h " ++ dec minutes ++ "m".

(** Python compares dict keys with [==], for which [True] is [1] and
    [False] is [0]; lists and dicts cannot be keys. *)
Definition hashable (v : value) : bool :=
  match v with
  | VList _ | VDict _ => false
  | _ => true
  end.

Definition key_eqb (a b : value) : bool :=
  match a, b with
  | VNone, VNone => true
  | VStr s, VStr t => String.eqb s t
  | (VInt _ | VBool _), (VInt _ | VBool _) =>
      match as_int a, as_int b with
      | Some x, Some y => x =? y
      | _, _ => false
      end
  | _, _ => false
  end.

(** A dict built by the script: entries in insertion order. *)
Definition dict (A : Type) : Type := list (value * A).

Fixpoint dict_find {A : Type} (k : value) (d : dict A) : option A :=
  match d with
  | [] => None
  | (k', x) :: d' => if key_eqb k k' then Some x else dict_find k d'
  end.

(** [d[k] = x]: an existing entry keeps its place and its key, a new one
    goes last. *)
Fixpoint dict_set {A : Type} (k : value) (x : A) (d : dict A) : dict A :=
  match d with
  | [] => [(k, x)]
  | (k', y) :: d' =>
      if key_eqb k k' then (k', x) :: d' else (k', y) :: dict_set k x d'
  end.

(** The body of the first loop of [calculer_temps_par_collaborateur]:
    [temps_par_collaborateur[author] += time_spent_seconds] on a
    [defaultdict(int)]. *)
Definition add_entry (entry : value) (temps : dict Z) : result (dict Z) :=
  a <- get entry "author" (VDict []) ;;
  author <- get a "displayName" (VStr "Inconnu") ;;
  time_spent_seconds <- get entry "timeSpentSeconds" (VInt 0) ;;
  if hashable author then
    let current := match dict_find author temps with Some t => t | None => 0 end in
    match as_int time_spent_seconds with
    | Some t => Ok (dict_set author (current + t) temps)
    | None => Raise TypeError
    end
  else Raise TypeError.

Fixpoint add_entries (entries : list value) (temps : dict Z) : result (dict Z) :=
  match entries with
  | [] => Ok temps
  | entry :: rest => temps' <- add_entry entry temps ;; add_entries rest temps'
  end.

(** The accumulation step: author to total seconds. *)
Definition temps_par_collaborateur (worklog : value) : result (dict Z) :=
  entries <- iter worklog ;;
  add_entries entries [].

(** The second loop: every total is formatted. *)
Fixpoint format_totals (items : dict Z) (out : dict string) : dict string :=
  match items with
  | [] => out
  | (author, total_seconds) :: rest =>
      format_totals rest (dict_set author (convert_seconds_to_hm total_seconds) out)
  end.

Definition calculer_temps_par_collaborateur (worklog : value) : result (dict string) :=
  temps <- temps_par_collaborateur worklog ;;
  Ok (format_totals temps []).

(** ** Field normalizers *)

Fixpoint comments_loop (comments : list value) (formatted_comments : list string)
  : result (list string) :=
  match comments with
  | [] => Ok formatted_comments
  | comment :: rest =>
      a <- get comment "author" (VDict []) ;;
      author <- get a "displayName" (VStr "Unknown") ;;
      created <- get comment "created" (VStr "Unknown date") ;;
      body <- get comment "body" (VStr "No content") ;;
      let formatted_comment :=
        "[" ++ py_str created ++ "] " ++ py_str author ++ ": " ++ py_str body in
      comments_loop rest (formatted_comments ++ [formatted_comment])
  end.

Definition process_comments (comment_field : value) : result string :=
  if negb (truthy comment_field) then Ok EmptyString
  else
    c <- get comment_field "comments" VNone ;;
    if negb (truthy c) then Ok EmptyString
    else
      comments <- get comment_field "comments" (VList []) ;;
      items <- iter comments ;;
      formatted_comments <- comments_loop items [] ;;
      Ok (concat (nl ++ "---" ++ nl) formatted_comments).

(** [status] and [summary] of a linked issue or a subtask, as both
    [process_issue_links] and [process_subtasks] compute them. *)
Definition status_of (issue : value) : result value :=
  has_fields <- contains "fields" issue ;;
  if has_fields then
    f <- get issue "fields" (VDict []) ;;
    s <- get f "status" (VDict []) ;;
    get s "name" (VStr "Unknown status")
  else Ok (VStr "Unknown status").

Definition summary_of (issue : value) : result value :=
  has_fields <- contains "fields" issue ;;
  if has_fields then
    f <- get issue "fields" (VDict []) ;;
    get f "summary" (VStr "No summary")
  else Ok (VStr "No summary").

(** The text after the [if]/[elif]/[else] of the loop of
    [process_issue_links]. *)
Definition format_link (direction : string) (relation linked_issue : value)
  : result string :=
  key <- get linked_issue "key" (VStr "Unknown") ;;
  status <- status_of linked_issue ;;
  summary <- summary_of linked_issue ;;
  Ok (direction ++ ": " ++ py_str relation ++ " " ++ py_str key
        ++ " [" ++ py_str status ++ "] - " ++ py_str summary).

Fixpoint links_loop (issuelinks : list value) (formatted_links : list string)
  : result (list string) :=
  match issuelinks with
  | [] => Ok formatted_links
  | link :: rest =>
      has_outward <- contains "outwardIssue" link ;;
      if has_outward then
        t <- get link "type" (VDict []) ;;
        relation <- get t "outward" (VStr "relates to") ;;
        linked_issue <- get link "outwardIssue" (VDict []) ;;
        formatted_link <- format_link "outward" relation linked_issue ;;
        links_loop rest (formatted_links ++ [formatted_link])
      else
        has_inward <- contains "inwardIssue" link ;;
        if has_inward then
          t <- get link "type" (VDict []) ;;
          relation <- get t "inward" (VStr "is related to by") ;;
          linked_issue <- get link "inwardIssue" (VDict []) ;;
          formatted_link <- format_link "inward" relation linked_issue ;;
          links_loop rest (formatted_links ++ [formatted_link])
        else links_loop rest formatted_links
  end.

Definition process_issue_links (issuelinks : value) : result string :=
  if negb (truthy issuelinks) then Ok EmptyString
  else
    items <- iter issuelinks ;;
    formatted_links <- links_loop items [] ;;
    Ok (concat nl formatted_links).

Fixpoint subtasks_loop (subtasks : list value) (formatted_subtasks : list string)
  : result (list string) :=
  match subtasks with
  | [] => Ok formatted_subtasks
  | subtask :: rest =>
      key <- get subtask "key" (VStr "Unknown") ;;
      status <- status_of subtask ;;
      summary <- summary_of subtask ;;
      let formatted_subtask :=
        py_str key ++ " [" ++ py_str status ++ "] - " ++ py_str summary in
      subtasks_loop rest (formatted_subtasks ++ [formatted_subtask])
  end.

Definition process_subtasks (subtasks : value) : result string :=
  if negb (truthy subtasks) then Ok EmptyString
  else
    items <- iter subtasks ;;
    formatted_subtasks <- subtasks_loop items [] ;;
    Ok (concat nl formatted_subtasks).

(** The list comprehension [[x.get(k, dflt) for x in items]]. *)
Fixpoint get_each (k : string) (dflt : value) (items : list value)
  : result (list value) :=
  match items with
  | [] => Ok []
  | x :: rest =>
      name <- get x k dflt ;;
      names <- get_each k dflt rest ;;
      Ok (name :: names)
  end.

Definition process_fix_versions (fix_versions : value) : result string :=
  if negb (truthy fix_versions) then Ok EmptyString
  else
    items <- iter fix_versions ;;
    names <- get_each "name" (VStr "Unknown") items ;;
    join ", " (VList names).

Definition process__versions (versions : value) : result string :=
  if negb (truthy versions) then Ok EmptyString
  else
    items <- iter versions ;;
    names <- get_each "name" (VStr "Unknown") items ;;
    join ", " (VList names).

(** ** Record flattener: the body of the loop of [save_to_csv] *)

(** A cell of a row: a decoded value copied or computed from the issue, or
    the per-author dict of the Worklog column. *)
Inductive cell : Type :=
| CVal (v : value)
| CDict (d : dict string).

Definition row : Type := list (string * cell).

(** [fields.get(k, {}).get(sub, dflt) if fields.get(k) else other], the
    expression the loop uses for every nested scalar. *)
Definition get_nested (fields : value) (k sub : string) (dflt other : value)
  : result value :=
  c <- get fields k VNone ;;
  if truthy c then
    x <- get fields k (VDict []) ;;
    get x sub dflt
  else Ok other.

Definition process_issue (issue : value) : result row :=
  key <- get issue "key" (VStr EmptyString) ;;
  fields <- get issue "fields" (VDict []) ;;
  issue_type <- get_nested fields "issuetype" "name" (VStr EmptyString) (VStr EmptyString) ;;
  summary <- get fields "summary" (VStr EmptyString) ;;
  description <- get fields "description" (VStr EmptyString) ;;
  status <- get_nested fields "status" "name" (VStr EmptyString) (VStr EmptyString) ;;
  priority <- get_nested fields "priority" "name" (VStr EmptyString) (VStr EmptyString) ;;
  created <- get fields "created" (VStr EmptyString) ;;
  updated <- get fields "updated" (VStr EmptyString) ;;
  reporter <- get_nested fields "reporter" "displayName" (VStr EmptyString) (VStr EmptyString) ;;
  assignee <- get_nested fields "assignee" "displayName" (VStr EmptyString) (VStr EmptyString) ;;
  resolution <- get_nested fields "resolution" "name" (VStr EmptyString) (VStr "Unresolved") ;;
  resolution_date <- get fields "resolutiondate" (VStr EmptyString) ;;
  release_note <- get fields "customfield_13570" (VStr EmptyString) ;;
  target_version <- get fields "customfield_13751" VNone ;;
  labels_field <- get fields "labels" (VList []) ;;
  labels <- join ", " labels_field ;;
  components_field <- get fields "components" (VList []) ;;
  component_items <- iter components_field ;;
  component_names <- get_each "name" (VStr EmptyString) component_items ;;
  components <- join ", " (VList component_names) ;;
  versions_field <- get fields "versions" (VList []) ;;
  versions <- process__versions versions_field ;;
  fix_versions_field <- get fields "fixVersions" (VList []) ;;
  fix_versions <- process_fix_versions fix_versions_field ;;
  module_feature <- get fields "customfield_19850" VNone ;;
  issuelinks_field <- get fields "issuelinks" (VList []) ;;
  issue_links <- process_issue_links issuelinks_field ;;
  subtasks_field <- get fields "subtasks" (VList []) ;;
  subtasks <- process_subtasks subtasks_field ;;
  parent <- get_nested fields "parent" "key" (VStr EmptyString) (VStr EmptyString) ;;
  due_date <- get fields "duedate" (VStr EmptyString) ;;
  watches <- get_nested fields "watches" "watchCount" (VInt 0) (VInt 0) ;;
  comment_field <- get fields "comment" VNone ;;
  comments <- process_comments comment_field ;;
  worklog_field <- get fields "worklog" (VDict []) ;;
  worklogs <- get worklog_field "worklogs" (VList []) ;;
  worklog <- calculer_temps_par_collaborateur worklogs ;;
  Ok [ ("Key", CVal key);
       ("Type", CVal issue_type);
       ("Summary", CVal summary);
       ("Description", CVal description);
       ("Status", CVal status);
       ("Resolution", CVal resolution);
       ("Resolution Date", CVal resolution_date);
       ("Release Note", CVal release_note);
       ("Priority", CVal priority);
       ("Created", CVal created);
       ("Updated", CVal updated);
       ("Due Date", CVal due_date);
       ("Reporter", CVal reporter);
       ("Assignee", CVal assignee);
       ("Labels", CVal (VStr labels));
       ("Components", CVal (VStr components));
       ("Versions", CVal (VStr versions));
       ("Fix Versions", CVal (VStr fix_versions));
       ("Target Version", CVal target_version);
       ("Parent Issue", CVal parent);
       ("Watchers", CVal watches);
       ("Issue Links", CVal (VStr issue_links));
       ("Subtasks", CVal (VStr subtasks));
       ("Comments", CVal (VStr comments));
       ("Module-Feature", CVal module_feature);
       ("Worklog", CDict worklog) ].

(** The loop of [save_to_csv]: the rows handed to the table writer. *)
Fixpoint process_issues (issues : list value) (processed_issues : list row)
  : result (list row) :=
  match issues with
  | [] => Ok processed_issues
  | issue :: rest =>
      processed_issue <- process_issue issue ;;
      process_issues rest (processed_issues ++ [processed_issue])
  end.

(** The columns of the output file, in the order of the schema. *)
Definition columns : list string :=
  [ "Key"; "Type"; "Summary"; "Description"; "Status"; "Resolution";
    "Resolution Date"; "Release Note"; "Priority"; "Created"; "Updated";
    "Due Date"; "Reporter"; "Assignee"; "Labels"; "Components"; "Versions";
    "Fix Versions"; "Target Version"; "Parent Issue"; "Watchers";
    "Issue Links"; "Subtasks"; "Comments"; "Module-Feature"; "Worklog" ].

(** ** Pagination client *)

(** The two bodies the client posts: the count probe
    [{jql, maxResults: 0}] and a page [{jql, startAt, maxResults, fields}].
    The query and the field list are the same in every request. *)
Inductive request : Type :=
| CountProbe
| Page (start_at max_results : Z).

(** What [requests.post] gives back: an exception, or a response with its
    status code and its decoded body ([None] when [response.json()]
    raises). *)
Inductive response : Type :=
| Fault
| Reply (status_code : Z) (body : option value).

Definition event : Type := (request * response)%type.

Definition batch_size : Z := 100.

(** The issues of a page as the loop reads them, [None] when the [try]
    block ends in the [else] branch or in the handler: a fault, a status
    other than 200, a body that does not decode, no [issues] entry, or one
    that has no [len]. *)
Definition page_items (r : response) : option (list value) :=
  match r with
  | Fault => None
  | Reply status_code body =>
      if status_code =? 200 then
        match body with
        | None => None
        | Some data =>
            match (issues <- subscript data "issues" ;; iter issues) with
            | Ok items => Some items
            | Raise _ => None
            end
        end
      else None
  end.

Section Client.

(** The service and the network: a state and the answer to one request. *)
Variable World : Type.
Variable post : World -> request -> World * response.

(** The [while] loop.  [sent] records the exchanges so far; the loop
    itself has no bound, [fuel] counts the iterations left. *)
Fixpoint fetch_pages (fuel : nat) (total_to_fetch : Z) (w : World)
         (sent : list event) (all_issues : list value) (start_at : Z)
  : option (list event * list value) :=
  if Z.of_nat (List.length all_issues) <? total_to_fetch then
    match fuel with
    | O => None
    | S fuel' =>
        let payload :=
          Page start_at
               (Z.min batch_size (total_to_fetch - Z.of_nat (List.length all_issues))) in
        let (w', r) := post w payload in
        let sent' := (sent ++ [(payload, r)])%list in
        match page_items r with
        | None => Some (sent', all_issues)
        | Some [] => Some (sent', all_issues)
        | Some items =>
            fetch_pages fuel' total_to_fetch w' sent'
                        (all_issues ++ items)
                        (start_at + Z.of_nat (List.length items))
        end
    end
  else Some (sent, all_issues).

(** What the count probe leaves in [total_to_fetch]: [Ok None] when the
    function returns the empty list from the [try] block, [Raise] when the
    first test of the [while] loop compares an int with something else. *)
Definition count_target (max_issues : option Z) (r : response)
  : result (option Z) :=
  match r with
  | Fault => Ok None
  | Reply status_code body =>
      if negb (status_code =? 200) then Ok None
      else
        match body with
        | None => Ok None
        | Some data =>
            match subscript data "total" with
            | Raise _ => Ok None
            | Ok total_available =>
                match max_issues, as_int total_available with
                | None, Some t => Ok (Some t)
                | None, None => Raise TypeError
                | Some m, Some t => Ok (Some (Z.min m t))
                | Some _, None => Ok None
                end
            end
        end
  end.

(** [fetch_jira_issues]: the exchanges with the service and what the
    function returns or raises. *)
Definition fetch_jira_issues (fuel : nat) (w : World) (max_issues : option Z)
  : option (list event * result (list value)) :=
  let (w', r) := post w CountProbe in
  let sent := [(CountProbe, r)] in
  match count_target max_issues r with
  | Raise e => Some (sent, Raise e)
  | Ok None => Some (sent, Ok [])
  | Ok (Some total_to_fetch) =>
      match fetch_pages fuel total_to_fetch w' sent [] 0 with
      | Some (sent', all_issues) => Some (sent', Ok all_issues)
      | None => None
      end
  end.

End Client.

(** * The output the specification describes

    The functions of this part say what the specification says a normalizer
    returns.  They read a record with [attr], which never fails: an absent
    attribute, or an attribute of something that is not a record, is the
    default. *)

Definition is_dict (v : value) : bool :=
  match v with
  | VDict _ => true
  | _ => false
  end.

Definition is_string (v : value) : bool :=
  match v with
  | VStr _ => true
  | _ => false
  end.

Definition attr (v : value) (k : string) (dflt : value) : value :=
  match v with
  | VDict d => match lookup k d with Some x => x | None => dflt end
  | _ => dflt
  end.

Definition has_key (k : string) (v : value) : bool :=
  match v with
  | VDict d => match lookup k d with Some _ => true | None => false end
  | _ => false
  end.

Definition undec (s : string) : option Z :=
  option_map Z.of_int (NilZero.int_of_string s).

(** *** Comments *)

Definition comment_separator : string := nl ++ "---" ++ nl.

Definition comment_author (comment : value) : value :=
  attr (attr comment "author" (VDict [])) "displayName" (VStr "Unknown").

(** [[<timestamp>] <author>: <body>] *)
Definition comment_text (comment : value) : string :=
  "[" ++ py_str (attr comment "created" (VStr "Unknown date")) ++ "] "
      ++ py_str (comment_author comment) ++ ": "
      ++ py_str (attr comment "body" (VStr "No content")).

(** A comment as the service sends it: a record whose author, when there
    is one, is a record. *)
Definition comment_ok (comment : value) : bool :=
  is_dict comment && is_dict (attr comment "author" (VDict [])).

(** *** Version lists *)

Definition version_name (version : value) : value :=
  attr version "name" (VStr "Unknown").

Definition version_text (version : value) : string :=
  py_str (version_name version).

(** A version record: its name, when there is one, is a str. *)
Definition version_ok (version : value) : bool :=
  is_dict version && is_string (version_name version).

Definition format_version_list (versions : list value) : string :=
  concat ", " (map version_text versions).

(** *** Issue links and subtasks *)

Definition issue_status (issue : value) : value :=
  if has_key "fields" issue then
    attr (attr (attr issue "fields" (VDict [])) "status" (VDict []))
         "name" (VStr "Unknown status")
  else VStr "Unknown status".

Definition issue_summary (issue : value) : value :=
  if has_key "fields" issue then
    attr (attr issue "fields" (VDict [])) "summary" (VStr "No summary")
  else VStr "No summary".

(** [<direction>: <relation> <key> [<status>] - <summary>] *)
Definition link_text (direction : string) (relation issue : value) : string :=
  direction ++ ": " ++ py_str relation ++ " "
    ++ py_str (attr issue "key" (VStr "Unknown"))
    ++ " [" ++ py_str (issue_status issue) ++ "] - "
    ++ py_str (issue_summary issue).

Definition outward_relation (link : value) : value :=
  attr (attr link "type" (VDict [])) "outward" (VStr "relates to").

Definition inward_relation (link : value) : value :=
  attr (attr link "type" (VDict [])) "inward" (VStr "is related to by").

(** The line of a link, [None] for a link that has neither end. *)
Definition link_line (link : value) : option string :=
  if has_key "outwardIssue" link then
    Some (link_text "outward" (outward_relation link)
                    (attr link "outwardIssue" (VDict [])))
  else if has_key "inwardIssue" link then
    Some (link_text "inward" (inward_relation link)
                    (attr link "inwardIssue" (VDict [])))
  else None.

Definition link_lines (links : list value) : list string :=
  flat_map (fun link => match link_line link with Some t => [t] | None => [] end)
           links.

(** A link that has one of its two ends. *)
Definition has_end (link : value) : bool :=
  has_key "outwardIssue" link || has_key "inwardIssue" link.

(** [<key> [<status>] - <summary>] *)
Definition subtask_text (subtask : value) : string :=
  py_str (attr subtask "key" (VStr "Unknown"))
    ++ " [" ++ py_str (issue_status subtask) ++ "] - "
    ++ py_str (issue_summary subtask).

(** An issue the service refers to: a record whose [fields], when there,
    is a record, and so is the [status] in it. *)
Definition issue_ref_ok (issue : value) : bool :=
  is_dict issue
  && (if has_key "fields" issue then
        is_dict (attr issue "fields" (VDict []))
        && is_dict (attr (attr issue "fields" (VDict [])) "status" (VDict []))
      else true).

(** A link as the service sends it: a record whose [type], when there, is
    a record and whose end is an issue. *)
Definition link_ok (link : value) : bool :=
  is_dict link
  && (if has_key "outwardIssue" link then
        is_dict (attr link "type" (VDict []))
        && issue_ref_ok (attr link "outwardIssue" (VDict []))
      else if has_key "inwardIssue" link then
        is_dict (attr link "type" (VDict []))
        && issue_ref_ok (attr link "inwardIssue" (VDict []))
      else true).

(** [d] without its entry for [k]. *)
Fixpoint remove_key (k : string) (d : list (string * value)) : list (string * value) :=
  match d with
  | [] => []
  | (k', x) :: d' =>
      if String.eqb k k' then remove_key k d' else (k', x) :: remove_key k d'
  end.

(** *** Sample records *)

Definition sample_links : list value :=
  [VDict [("type", VDict [("outward", VStr "blocks")]);
          ("outwardIssue", VDict [("key", VStr "DHRD-7")])];
   VDict [("id", VStr "10")];
   VDict [("inwardIssue",
           VDict [("key", VStr "DHRD-9");
                  ("fields",
                   VDict [("summary", VStr "Crash");
                          ("status", VDict [("name", VStr "Open")])])])]].

Definition sample_two_ended_link : list (string * value) :=
  [("type", VDict [("inward", VStr "is blocked by"); ("outward", VStr "blocks")]);
   ("inwardIssue", VDict [("key", VStr "DHRD-2")]);
   ("outwardIssue", VDict [("key", VStr "DHRD-1")])].

(** *** Durations by author *)

(** The key an entry is counted under when [dflt] stands for a missing
    display name. *)
Definition entry_author (dflt : string) (entry : value) : value :=
  attr (attr entry "author" (VDict [])) "displayName" (VStr dflt).

(** The duration of an entry, 0 when it has none. *)
Definition entry_seconds (entry : value) : Z :=
  match as_int (attr entry "timeSpentSeconds" (VInt 0)) with
  | Some t => t
  | None => 0
  end.

(** A work-log entry as the service sends it: a record whose author, when
    there, is a record with a display name that can be a key, and whose
    duration, when there, is a number. *)
Definition entry_ok (entry : value) : bool :=
  is_dict entry
  && is_dict (attr entry "author" (VDict []))
  && hashable (entry_author EmptyString entry)
  && match as_int (attr entry "timeSpentSeconds" (VInt 0)) with
     | Some _ => true
     | None => false
     end.

Definition has_author (dflt : string) (k : value) (entries : list value) : bool :=
  existsb (fun entry => key_eqb k (entry_author dflt entry)) entries.

Definition author_total (dflt : string) (k : value) (entries : list value) : Z :=
  fold_right
    (fun entry t =>
       if key_eqb k (entry_author dflt entry) then entry_seconds entry + t else t)
    0 entries.

(** The statement of the specification about the accumulation step, for a
    given default key: the totals exist, and the total under a key is the
    sum of the durations of the entries of that author, when there is one. *)
Definition sums_by_author (dflt : string) : Prop :=
  forall entries : list value,
    forallb entry_ok entries = true ->
    exists temps : dict Z,
      temps_par_collaborateur (VList entries) = Ok temps
      /\ forall k : value,
           dict_find k temps
           = if has_author dflt k entries
             then Some (author_total dflt k entries)
             else None.

Fixpoint distinct_keys {A : Type} (d : dict A) : Prop :=
  match d with
  | [] => True
  | (k, _) :: d' => dict_find k d' = None /\ distinct_keys d'
  end.

Definition sample_worklog : list value :=
  [VDict [("author", VDict [("displayName", VStr "A")]); ("timeSpentSeconds", VInt 1800)];
   VDict [("author", VDict [("displayName", VStr "A")]); ("timeSpentSeconds", VInt 1800)];
   VDict [("author", VDict [("displayName", VStr "B")]); ("timeSpentSeconds", VInt 60)]].

(** *** Arguments of the expected shape *)

(** A normalizer never fails when [total] holds of it, and never fails on
    the arguments that satisfy [ok] when [total_on ok] does. *)
Definition total (f : value -> result string) : Prop :=
  forall v : value, exists s : string, f v = Ok s.

Definition total_on (ok : value -> bool) (f : value -> result string) : Prop :=
  forall v : value, ok v = true -> exists s : string, f v = Ok s.

(** Nothing (None, an empty list, an empty record, ...) or a list of
    records that satisfy [ok]. *)
Definition list_or_nothing (ok : value -> bool) (v : value) : bool :=
  negb (truthy v)
  || match v with
     | VList items => forallb ok items
     | _ => false
     end.

(** Nothing, or a record whose [comments], when there, are nothing or a
    list of comments. *)
Definition comment_field_ok (v : value) : bool :=
  negb (truthy v)
  || (is_dict v && list_or_nothing comment_ok (attr v "comments" VNone)).

Definition subtask_texts (subtasks : list value) : string :=
  concat nl (map subtask_text subtasks).

(** *** Rows *)

Fixpoint cell_of (column : string) (r : row) : option cell :=
  match r with
  | [] => None
  | (c, x) :: r' => if String.eqb column c then Some x else cell_of column r'
  end.

(** A nested scalar of the fields: missing, null (or anything else Python
    takes as false), or a record. *)
Definition nested_ok (fields : value) (k : string) : bool :=
  negb (truthy (attr fields k VNone)) || is_dict (attr fields k VNone).

Definition strings_ok (v : value) : bool :=
  match v with
  | VList items => forallb is_string items
  | _ => false
  end.

Definition component_ok (component : value) : bool :=
  is_dict component && is_string (attr component "name" (VStr EmptyString)).

Definition components_ok (v : value) : bool :=
  match v with
  | VList items => forallb component_ok items
  | _ => false
  end.

Definition worklog_ok (v : value) : bool :=
  is_dict v
  && match attr v "worklogs" (VList []) with
     | VList entries => forallb entry_ok entries
     | _ => false
     end.

(** A raw issue record as the search endpoint sends it: a record whose
    [fields], when there, is a record in which every field may be missing,
    the nested scalars may also be null, and the fields that are there have
    the shape above. *)
Definition issue_ok (issue : value) : bool :=
  let fields := attr issue "fields" (VDict []) in
  is_dict issue
  && is_dict fields
  && nested_ok fields "issuetype"
  && nested_ok fields "status"
  && nested_ok fields "priority"
  && nested_ok fields "reporter"
  && nested_ok fields "assignee"
  && nested_ok fields "resolution"
  && nested_ok fields "parent"
  && nested_ok fields "watches"
  && strings_ok (attr fields "labels" (VList []))
  && components_ok (attr fields "components" (VList []))
  && list_or_nothing version_ok (attr fields "versions" (VList []))
  && list_or_nothing version_ok (attr fields "fixVersions" (VList []))
  && list_or_nothing link_ok (attr fields "issuelinks" (VList []))
  && list_or_nothing issue_ref_ok (attr fields "subtasks" (VList []))
  && comment_field_ok (attr fields "comment" VNone)
  && worklog_ok (attr fields "worklog" (VDict [])).

(** The row of an issue that has a key and nothing else. *)
Definition bare_row (key : value) : row :=
  [ ("Key", CVal key);
    ("Type", CVal (VStr EmptyString));
    ("Summary", CVal (VStr EmptyString));
    ("Description", CVal (VStr EmptyString));
    ("Status", CVal (VStr EmptyString));
    ("Resolution", CVal (VStr "Unresolved"));
    ("Resolution Date", CVal (VStr EmptyString));
    ("Release Note", CVal (VStr EmptyString));
    ("Priority", CVal (VStr EmptyString));
    ("Created", CVal (VStr EmptyString));
    ("Updated", CVal (VStr EmptyString));
    ("Due Date", CVal (VStr EmptyString));
    ("Reporter", CVal (VStr EmptyString));
    ("Assignee", CVal (VStr EmptyString));
    ("Labels", CVal (VStr EmptyString));
    ("Components", CVal (VStr EmptyString));
    ("Versions", CVal (VStr EmptyString));
    ("Fix Versions", CVal (VStr EmptyString));
    ("Target Version", CVal VNone);
    ("Parent Issue", CVal (VStr EmptyString));
    ("Watchers", CVal (VInt 0));
    ("Issue Links", CVal (VStr EmptyString));
    ("Subtasks", CVal (VStr EmptyString));
    ("Comments", CVal (VStr EmptyString));
    ("Module-Feature", CVal VNone);
    ("Worklog", CDict []) ].

Definition sample_issue : value :=
  VDict [("key", VStr "DHRD-1");
         ("fields",
          VDict [("summary", VStr "Crash on start");
                 ("status", VDict [("name", VStr "Open")]);
                 ("resolution", VNone);
                 ("labels", VList [VStr "ui"; VStr "p1"]);
                 ("issuelinks", VList sample_links);
                 ("worklog", VDict [("worklogs", VList sample_worklog)])])].

(** *** Runs of the pagination client *)

(** The records of the pages received in a list of exchanges. *)
Definition records (evs : list event) : list value :=
  flat_map (fun ev => match page_items (snd ev) with
                      | Some items => items
                      | None => []
                      end) evs.

(** The page request of a turn of the loop that starts with [n] records
    accumulated. *)
Definition page_request (total_to_fetch n : Z) : request :=
  Page n (Z.min batch_size (total_to_fetch - n)).

(** The exchanges of the loop from a turn that starts with [n] records:
    none when the target is reached; one, the last, when the page fails or
    is empty; otherwise a page of records and the exchanges from
    [n + len(page)]. *)
Inductive page_run (total_to_fetch : Z) : Z -> list event -> Prop :=
| run_done (n : Z) :
    total_to_fetch <= n ->
    page_run total_to_fetch n []
| run_stop (n : Z) (r : response) :
    n < total_to_fetch ->
    page_items r = None \/ page_items r = Some [] ->
    page_run total_to_fetch n [(page_request total_to_fetch n, r)]
| run_more (n : Z) (r : response) (items : list value) (evs : list event) :
    n < total_to_fetch ->
    page_items r = Some items ->
    items <> [] ->
    page_run total_to_fetch (n + Z.of_nat (List.length items)) evs ->
    page_run total_to_fetch n ((page_request total_to_fetch n, r) :: evs).

(** A request that fails: an exception of the transport, or a status
    other than 200. *)
Definition failed (r : response) : bool :=
  match r with
  | Fault => true
  | Reply status_code _ => negb (status_code =? 200)
  end.

(** Every page that came back holds as many records as were asked for. *)
Definition exact_page (ev : event) : bool :=
  match fst ev, page_items (snd ev) with
  | Page _ max_results, Some items => Z.of_nat (List.length items) =? max_results
  | _, _ => true
  end.

(** Every page came back. *)
Definition page_received (ev : event) : bool :=
  match page_items (snd ev) with
  | Some _ => true
  | None => false
  end.

(** The count reported by a probe that succeeds with total [t]. *)
Definition count_reply (t : Z) : response :=
  Reply 200 (Some (VDict [("total", VInt t)])).

(** A page of [n] records. *)
Definition page_reply (n : nat) : response :=
  Reply 200 (Some (VDict [("issues", VList (repeat (VDict []) n))])).

(** A service that answers from a list of prepared responses, and with a
    fault when the list is used up. *)
Definition scripted (w : list response) (_ : request) : list response * response :=
  match w with
  | [] => ([], Fault)
  | r :: w' => (w', r)
  end.

(** A service with [total] issues that sends every page in full. *)
Definition faithful (total : Z) (w : unit) (req : request) : unit * response :=
  match req with
  | CountProbe => (w, count_reply total)
  | Page _ max_results => (w, page_reply (Z.to_nat max_results))
  end.

(** A run in which the third page request is refused, and one against a
    faithful service with 250 issues. *)
Definition faulty_script : list response :=
  [count_reply 250; page_reply 100; page_reply 20; Reply 500 None].

Definition faulty_pages : list event :=
  [(Page 0 100, page_reply 100); (Page 100 100, page_reply 20)].

Definition faithful_events : list event :=
  [(CountProbe, count_reply 250);
   (Page 0 100, page_reply 100);
   (Page 100 100, page_reply 100);
   (Page 200 50, page_reply 50)].

(** *** Page requests of a run *)

(** The offset of a page request ([-1] for the probe, which has none). *)
Definition start_of (ev : event) : Z :=
  match fst ev with
  | Page start_at _ => start_at
  | CountProbe => -1
  end.

(** No page that came back holds more records than were asked for. *)
Definition bounded_page (ev : event) : bool :=
  match fst ev, page_items (snd ev) with
  | Page _ max_results, Some items => Z.of_nat (List.length items) <=? max_results
  | _, _ => true
  end.

(** A run in which the service sends short pages. *)
Definition short_pages_script : list response :=
  [count_reply 250; page_reply 30; page_reply 7; page_reply 0].

Definition short_pages_events : list event :=
  [(CountProbe, count_reply 250);
   (Page 0 100, page_reply 30);
   (Page 30 100, page_reply 7);
   (Page 37 100, page_reply 0)].

(** The body of a reply from which no [total] can be read: it does not
    decode, or it is not a record with a [total]. *)
Definition no_total (body : option value) : bool :=
  match body with
  | None => true
  | Some data =>
      match subscript data "total" with
      | Ok _ => false
      | Raise _ => true
      end
  end.

(** A run with a maximum of 50 against a service that sends short pages. *)
Definition capped_events : list event :=
  [(CountProbe, count_reply 250);
   (Page 0 50, page_reply 30);
   (Page 30 20, page_reply 7);
   (Page 37 13, page_reply 0)].

(** *** Keys and sums of the totals *)

(** The keys of [ks] that are not in [seen], each at its first place. *)
Fixpoint new_keys (seen ks : list value) : list value :=
  match ks with
  | [] => []
  | k :: ks' =>
      if existsb (key_eqb k) seen then new_keys seen ks'
      else k :: new_keys (seen ++ [k]) ks'
  end.

(** The authors of a work log in the order in which they first appear. *)
Definition first_seen (entries : list value) : list value :=
  new_keys [] (map (entry_author "Inconnu") entries).

Definition dict_sum (d : dict Z) : Z :=
  fold_right (fun kv t => snd kv + t) 0 d.

Definition total_seconds (entries : list value) : Z :=
  fold_right (fun entry t => entry_seconds entry + t) 0 entries.

Definition sample_worklog_mixed : list value :=
  [VDict [("author", VDict [("displayName", VStr "B")]); ("timeSpentSeconds", VInt 60)];
   VDict [("timeSpentSeconds", VInt 30)];
   VDict [("author", VDict [("displayName", VStr "A")]); ("timeSpentSeconds", VInt 3600)];
   VDict [("author", VDict [("displayName", VStr "B")])];
   VDict [("author", VDict []); ("timeSpentSeconds", VInt 45)]].

Definition sample_subtasks : list value :=
  [VDict [("key", VStr "DHRD-11");
          ("fields", VDict [("summary", VStr "Write tests");
                            ("status", VDict [("name", VStr "Done")])])];
   VDict [("key", VStr "DHRD-12"); ("fields", VDict [])];
   VDict []].

(** *** The export as a whole *)

Definition issue_with_null_labels : value :=
  VDict [("key", VStr "DHRD-3"); ("fields", VDict [("labels", VNone)])].

Section Orchestrator.

Variable World : Type.
Variable post : World -> request -> World * response.

(** [main], as far as the rows handed to the table writer: all the issues
    of the project are fetched (no maximum) and flattened.  The name of
    the output file, which holds the time of the run, and the writing of
    the file are not part of the model. *)
Definition main (fuel : nat) (w : World)
  : option (list event * result (list row)) :=
  match fetch_jira_issues World post fuel w None with
  | None => None
  | Some (sent, fetched) =>
      Some (sent, issues <- fetched ;; process_issues issues [])
  end.

End Orchestrator.

Definition issue_with_null_lists (key : value) : value :=
  VDict [("key", key);
         ("fields",
          VDict [("versions", VNone); ("fixVersions", VNone);
                 ("issuelinks", VNone); ("subtasks", VNone);
                 ("comment", VNone)])].

Definition sample_resolved_issue : value :=
  VDict [("key", VStr "DHRD-4");
         ("fields",
          VDict [("status", VDict [("name", VStr "Closed")]);
                 ("resolution", VDict [("id", VStr "1")]);
                 ("assignee", VDict [("displayName", VStr "Ann")]);
                 ("watches", VDict [("watchCount", VInt 3)]);
                 ("description", VNone);
                 ("labels", VList [VStr "ui"]);
                 ("components", VList [VDict [("name", VStr "core")]; VDict []])])].

(** * Properties *)

(** ** Reading a decimal back *)

Lemma undec_dec (z : Z) : undec (dec z) = Some z.
Proof.
  unfold undec, dec.
  rewrite NilZero.isi.
  - simpl. now rewrite DecimalZ.of_to.
  - destruct z; simpl; try discriminate.
    intros [= H]. now apply (DecimalPos.Unsigned.to_uint_nonnil p).
  - destruct z; simpl; try discriminate.
    intros [= H]. now apply (DecimalPos.Unsigned.to_uint_nonnil p).
Qed.

(** ** Duration format *)

(** C4: for a nonnegative number of seconds the text is the decimal of the
    whole hours, [h ], the decimal of the remaining whole minutes and [m];
    the minutes are below 60, the seconds of the last minute are dropped
    without rounding, and both decimals read back as the numbers.  The three
    values the specification lists are as it gives them. *)
Theorem convert_seconds_to_hm_spec :
  (forall s : Z, 0 <= s ->
     let H := s / 3600 in
     let M := (s mod 3600) / 60 in
     convert_seconds_to_hm s = dec H ++ "h " ++ dec M ++ "m"
     /\ undec (dec H) = Some H /\ undec (dec M) = Some M
     /\ 0 <= H /\ 0 <= M < 60
     /\ 3600 * H + 60 * M <= s < 3600 * H + 60 * M + 60)
  /\ convert_seconds_to_hm 0 = "0h 0m"
  /\ convert_seconds_to_hm 3661 = "1h 1m"
  /\ convert_seconds_to_hm 59 = "0h 0m".
Proof.
  split; [| repeat split; reflexivity].
  intros s Hs H M.
  split; [reflexivity |].
  split; [apply undec_dec |].
  split; [apply undec_dec |].
  subst H M.
  pose proof (Z.div_mod s 3600 ltac:(lia)) as E1.
  pose proof (Z.mod_pos_bound s 3600 ltac:(lia)) as B1.
  pose proof (Z.div_mod (s mod 3600) 60 ltac:(lia)) as E2.
  pose proof (Z.mod_pos_bound (s mod 3600) 60 ltac:(lia)) as B2.
  assert (0 <= s / 3600) by (apply Z.div_pos; lia).
  assert (0 <= (s mod 3600) / 60) by (apply Z.div_pos; lia).
  assert ((s mod 3600) / 60 < 60) by (apply Z.div_lt_upper_bound; lia).
  repeat split; lia.
Qed.

Lemma convert_seconds_to_hm_witness :
  0 <= 7384 /\ convert_seconds_to_hm 7384 = "2h 3m".
Proof.
  split; [lia |].
  exact (proj1 (proj1 convert_seconds_to_hm_spec 7384 ltac:(lia))).
Defined.

(** ** Records read with [get] *)

Lemma get_attr (v : value) (k : string) (dflt : value) :
  is_dict v = true -> get v k dflt = Ok (attr v k dflt).
Proof. destruct v; simpl; intros H; try discriminate; reflexivity. Qed.

Lemma contains_has_key (v : value) (k : string) :
  is_dict v = true -> contains k v = Ok (has_key k v).
Proof. destruct v; simpl; intros H; try discriminate; reflexivity. Qed.

Lemma bind_ok {A B : Type} (a : A) (k : A -> result B) :
  bind (Ok a) k = k a.
Proof. reflexivity. Qed.

Lemma strings_of_texts (vs : list value) :
  forallb is_string vs = true -> strings_of vs = Ok (map py_str vs).
Proof.
  induction vs as [| v vs IH]; simpl; intros H; [reflexivity |].
  apply andb_true_iff in H as [Hv Hvs].
  destruct v; try discriminate.
  now rewrite (IH Hvs).
Qed.

(** ** Version lists *)

Lemma get_each_dicts (k : string) (dflt : value) (items : list value) :
  forallb is_dict items = true ->
  get_each k dflt items = Ok (map (fun x => attr x k dflt) items).
Proof.
  induction items as [| x items IH]; simpl; intros H; [reflexivity |].
  apply andb_true_iff in H as [Hx Hitems].
  now rewrite (get_attr _ _ _ Hx), (IH Hitems).
Qed.

Lemma version_ok_split (versions : list value) :
  forallb version_ok versions = true ->
  forallb is_dict versions = true
  /\ forallb is_string (map version_name versions) = true.
Proof.
  induction versions as [| v vs IH]; simpl; intros H; [now split |].
  apply andb_true_iff in H as [Hv Hvs].
  apply andb_true_iff in Hv as [Hd Hn].
  destruct (IH Hvs) as [IH1 IH2].
  now rewrite Hd, Hn, IH1, IH2.
Qed.

Lemma process_fix_versions_ok (versions : list value) :
  forallb version_ok versions = true ->
  process_fix_versions (VList versions) = Ok (format_version_list versions).
Proof.
  intros H. destruct (version_ok_split _ H) as [Hd Hn].
  destruct versions as [| v vs]; [reflexivity |].
  unfold process_fix_versions.
  change (truthy (VList (v :: vs))) with true. cbv iota beta.
  change (negb true) with false. cbv iota.
  change (iter (VList (v :: vs))) with (Ok (v :: vs)).
  rewrite bind_ok, (get_each_dicts _ _ _ Hd), bind_ok.
  unfold join. change (iter (VList ?l)) with (Ok l).
  rewrite bind_ok.
  change (map (fun x => attr x "name" (VStr "Unknown")) (v :: vs))
    with (map version_name (v :: vs)).
  rewrite (strings_of_texts _ Hn), bind_ok, map_map.
  reflexivity.
Qed.

(** C9: the two version formatters agree on every argument, well formed or
    not; an absent or empty list gives the empty text; a list of version
    records gives their names joined by a comma and a space, a record
    without a name counting as [Unknown]. *)
Theorem versions_formatters_agree :
  (forall v : value, process__versions v = process_fix_versions v)
  /\ process__versions VNone = Ok EmptyString
  /\ process__versions (VList []) = Ok EmptyString
  /\ (forall versions : list value,
        forallb version_ok versions = true ->
        process__versions (VList versions) = Ok (format_version_list versions)
        /\ process_fix_versions (VList versions) = Ok (format_version_list versions))
  /\ version_text (VDict []) = "Unknown".
Proof.
  assert (E : forall v, process__versions v = process_fix_versions v)
    by (intros v; reflexivity).
  split; [exact E |].
  split; [reflexivity |].
  split; [reflexivity |].
  split; [| reflexivity].
  intros versions H. rewrite E. split; now apply process_fix_versions_ok.
Qed.

Lemma versions_formatters_agree_witness :
  process__versions
    (VList [VDict [("name", VStr "1.0")]; VDict [("id", VStr "7")];
            VDict [("name", VStr "2.1")]])
  = Ok "1.0, Unknown, 2.1".
Proof.
  exact (proj1 (proj1 (proj2 (proj2 (proj2 versions_formatters_agree)))
                 [VDict [("name", VStr "1.0")]; VDict [("id", VStr "7")];
                  VDict [("name", VStr "2.1")]] eq_refl)).
Defined.

(** ** Comments *)

Lemma comments_loop_ok (comments : list value) (acc : list string) :
  forallb comment_ok comments = true ->
  comments_loop comments acc = Ok (acc ++ map comment_text comments)%list.
Proof.
  revert acc.
  induction comments as [| c cs IH]; simpl; intros acc H.
  - now rewrite app_nil_r.
  - apply andb_true_iff in H as [Hc Hcs].
    apply andb_true_iff in Hc as [Hd Ha].
    rewrite (get_attr _ _ _ Hd), bind_ok.
    rewrite (get_attr _ _ _ Ha), bind_ok.
    rewrite !(get_attr _ _ _ Hd), !bind_ok.
    rewrite (IH _ Hcs), <- app_assoc.
    reflexivity.
Qed.

Lemma process_comments_empty (d : list (string * value)) :
  truthy (attr (VDict d) "comments" VNone) = false ->
  process_comments (VDict d) = Ok EmptyString.
Proof.
  intros H. unfold process_comments.
  destruct d as [| e d]; [reflexivity |].
  change (truthy (VDict (e :: d))) with true.
  change (negb true) with false. cbv iota.
  rewrite get_attr by reflexivity. rewrite bind_ok, H. reflexivity.
Qed.

Lemma process_comments_ok (d : list (string * value)) (comments : list value) :
  lookup "comments" d = Some (VList comments) ->
  forallb comment_ok comments = true ->
  process_comments (VDict d)
  = Ok (concat comment_separator (map comment_text comments)).
Proof.
  intros Hl Hok.
  destruct comments as [| c cs].
  { apply process_comments_empty. unfold attr. now rewrite Hl. }
  unfold process_comments.
  destruct d as [| e d]; [discriminate |].
  change (truthy (VDict (e :: d))) with true.
  change (negb true) with false. cbv iota.
  rewrite !get_attr by reflexivity. rewrite !bind_ok.
  unfold attr. rewrite Hl.
  change (truthy (VList (c :: cs))) with true.
  change (negb true) with false. cbv iota.
  change (iter (VList (c :: cs))) with (Ok (c :: cs)).
  rewrite bind_ok, (comments_loop_ok _ _ Hok), bind_ok.
  reflexivity.
Qed.

(** C6, with the author where the function reads it: an absent comment
    field, and one with no comments, give the empty text; a field with
    comments gives the texts [[<timestamp>] <author>: <body>] of the
    comments, in order, with the line [---] between two of them, an absent
    attribute replaced by its default.  The author is the display name
    inside the author record of the comment: the comment whose author
    record names [Bob] gives [[2024-01-01] Bob: hi]. *)
Theorem process_comments_spec :
  process_comments VNone = Ok EmptyString
  /\ (forall d : list (string * value),
        truthy (attr (VDict d) "comments" VNone) = false ->
        process_comments (VDict d) = Ok EmptyString)
  /\ (forall (d : list (string * value)) (comments : list value),
        lookup "comments" d = Some (VList comments) ->
        forallb comment_ok comments = true ->
        process_comments (VDict d)
        = Ok (concat comment_separator (map comment_text comments)))
  /\ comment_separator = nl ++ "---" ++ nl
  /\ comment_text (VDict []) = "[Unknown date] Unknown: No content"
  /\ process_comments
       (VDict [("comments",
                VList [VDict [("author", VDict [("displayName", VStr "Bob")]);
                              ("created", VStr "2024-01-01");
                              ("body", VStr "hi")]])])
     = Ok "[2024-01-01] Bob: hi".
Proof.
  split; [reflexivity |].
  split; [exact process_comments_empty |].
  split; [exact process_comments_ok |].
  repeat split; reflexivity.
Qed.

Lemma process_comments_witness :
  process_comments
    (VDict [("comments",
             VList [VDict [("author", VDict [("displayName", VStr "Ann")]);
                           ("body", VStr "done")];
                    VDict [("created", VStr "2024-02-03")]])])
  = Ok ("[Unknown date] Ann: done" ++ nl ++ "---" ++ nl
        ++ "[2024-02-03] Unknown: No content").
Proof.
  exact (proj1 (proj2 (proj2 process_comments_spec))
           [("comments",
             VList [VDict [("author", VDict [("displayName", VStr "Ann")]);
                           ("body", VStr "done")];
                    VDict [("created", VStr "2024-02-03")]])]
           _ eq_refl eq_refl).
Defined.

(** On the comment whose [author] is the str [Bob] itself the function
    does not return: the str has no [get]. *)
Lemma process_comments_str_author_raises :
  process_comments
    (VDict [("comments",
             VList [VDict [("author", VStr "Bob");
                           ("created", VStr "2024-01-01");
                           ("body", VStr "hi")]])])
  = Raise AttributeError
  /\ process_comments
       (VDict [("comments",
                VList [VDict [("author", VStr "Bob");
                              ("created", VStr "2024-01-01");
                              ("body", VStr "hi")]])])
     <> Ok "[2024-01-01] Bob: hi".
Proof. split; [reflexivity | discriminate]. Qed.

(** ** Issue links *)

Lemma status_of_ok (issue : value) :
  issue_ref_ok issue = true -> status_of issue = Ok (issue_status issue).
Proof.
  unfold issue_ref_ok, status_of, issue_status. intros H.
  apply andb_true_iff in H as [Hd Hf].
  rewrite (contains_has_key _ _ Hd), bind_ok.
  destruct (has_key "fields" issue); [| reflexivity].
  apply andb_true_iff in Hf as [Hf Hs].
  now rewrite (get_attr _ _ _ Hd), bind_ok, (get_attr _ _ _ Hf), bind_ok,
    (get_attr _ _ _ Hs).
Qed.

Lemma summary_of_ok (issue : value) :
  issue_ref_ok issue = true -> summary_of issue = Ok (issue_summary issue).
Proof.
  unfold issue_ref_ok, summary_of, issue_summary. intros H.
  apply andb_true_iff in H as [Hd Hf].
  rewrite (contains_has_key _ _ Hd), bind_ok.
  destruct (has_key "fields" issue); [| reflexivity].
  apply andb_true_iff in Hf as [Hf Hs].
  now rewrite (get_attr _ _ _ Hd), bind_ok, (get_attr _ _ _ Hf).
Qed.

Lemma format_link_ok (direction : string) (relation issue : value) :
  issue_ref_ok issue = true ->
  format_link direction relation issue = Ok (link_text direction relation issue).
Proof.
  intros H. unfold format_link.
  assert (Hd : is_dict issue = true)
    by (unfold issue_ref_ok in H; now apply andb_true_iff in H as [Hd _]).
  now rewrite (get_attr _ _ _ Hd), bind_ok, (status_of_ok _ H), bind_ok,
    (summary_of_ok _ H), bind_ok.
Qed.

(** One turn of the loop on a well-formed link. *)
Lemma links_loop_step (link : value) (rest : list value) (acc : list string) :
  link_ok link = true ->
  links_loop (link :: rest) acc
  = links_loop rest
      (acc ++ match link_line link with Some t => [t] | None => [] end)%list.
Proof.
  intros H. unfold link_ok in H.
  apply andb_true_iff in H as [Hd H].
  cbn [links_loop]. unfold link_line, outward_relation, inward_relation.
  rewrite (contains_has_key _ _ Hd), bind_ok.
  destruct (has_key "outwardIssue" link).
  - apply andb_true_iff in H as [Ht Hi].
    now rewrite (get_attr _ _ _ Hd), bind_ok, (get_attr _ _ _ Ht), bind_ok,
      (get_attr _ _ _ Hd), bind_ok, (format_link_ok _ _ _ Hi), bind_ok.
  - rewrite (contains_has_key _ _ Hd), bind_ok.
    destruct (has_key "inwardIssue" link).
    + apply andb_true_iff in H as [Ht Hi].
      now rewrite (get_attr _ _ _ Hd), bind_ok, (get_attr _ _ _ Ht), bind_ok,
        (get_attr _ _ _ Hd), bind_ok, (format_link_ok _ _ _ Hi), bind_ok.
    + now rewrite app_nil_r.
Qed.

Lemma links_loop_ok (links : list value) (acc : list string) :
  forallb link_ok links = true ->
  links_loop links acc = Ok (acc ++ link_lines links)%list.
Proof.
  revert acc.
  induction links as [| l ls IH]; intros acc H.
  - simpl. now rewrite app_nil_r.
  - simpl in H. apply andb_true_iff in H as [Hl Hls].
    rewrite (links_loop_step _ _ _ Hl), (IH _ Hls), <- app_assoc.
    reflexivity.
Qed.

Lemma process_issue_links_ok (links : list value) :
  forallb link_ok links = true ->
  process_issue_links (VList links) = Ok (concat nl (link_lines links)).
Proof.
  intros H. destruct links as [| l ls]; [reflexivity |].
  unfold process_issue_links.
  change (truthy (VList (l :: ls))) with true.
  change (negb true) with false. cbv iota.
  change (iter (VList (l :: ls))) with (Ok (l :: ls)).
  now rewrite bind_ok, (links_loop_ok _ _ H), bind_ok.
Qed.

(** A link with neither end leaves the loop as it found it, whatever the
    links before and after it are. *)
Lemma links_loop_skip (pre post : list value) (link : value) (acc : list string) :
  is_dict link = true ->
  has_key "outwardIssue" link = false ->
  has_key "inwardIssue" link = false ->
  links_loop (pre ++ link :: post) acc = links_loop (pre ++ post) acc.
Proof.
  intros Hd Ho Hi. revert acc.
  induction pre as [| p pre IH]; intros acc.
  - cbn [app links_loop].
    now rewrite !(contains_has_key _ _ Hd), !bind_ok, Ho, Hi.
  - cbn [app links_loop].
    destruct (contains "outwardIssue" p) as [[|] | e]; cbn [bind];
      [| | reflexivity].
    + destruct (get p "type" (VDict [])) as [t | e]; cbn [bind]; [| reflexivity].
      destruct (get t "outward" (VStr "relates to")); cbn [bind]; [| reflexivity].
      destruct (get p "outwardIssue" (VDict [])); cbn [bind]; [| reflexivity].
      destruct (format_link "outward" a a0); cbn [bind]; [| reflexivity].
      apply IH.
    + destruct (contains "inwardIssue" p) as [[|] | e]; cbn [bind];
        [| apply IH | reflexivity].
      destruct (get p "type" (VDict [])) as [t | e]; cbn [bind]; [| reflexivity].
      destruct (get t "inward" (VStr "is related to by")); cbn [bind]; [| reflexivity].
      destruct (get p "inwardIssue" (VDict [])); cbn [bind]; [| reflexivity].
      destruct (format_link "inward" a a0); cbn [bind]; [| reflexivity].
      apply IH.
Qed.

Lemma link_lines_length (links : list value) :
  List.length (link_lines links) = List.length (filter has_end links).
Proof.
  induction links as [| l ls IH]; [reflexivity |].
  unfold link_lines in *. cbn [flat_map filter]. rewrite length_app, IH.
  unfold link_line, has_end.
  destruct (has_key "outwardIssue" l); [reflexivity |].
  destruct (has_key "inwardIssue" l); reflexivity.
Qed.

(** C7: an absent or empty list of links gives the empty text.  For a list
    of links the text is the lines of the links joined by newlines, one
    line [<direction>: <relation> <key> [<status>] - <summary>] for each
    link that has an end, and as many lines as there are such links: outward, with the outward relation, when the
    outward end is there, inward with the inward relation when only the
    inward end is, and no line when neither is.  A link with neither end
    can be taken out of any list without changing what the loop computes.
    A link with only the outward end and the relation [blocks] gives a line
    that starts with [outward: blocks ]. *)
Theorem process_issue_links_spec :
  process_issue_links VNone = Ok EmptyString
  /\ process_issue_links (VList []) = Ok EmptyString
  /\ (forall links : list value,
        forallb link_ok links = true ->
        process_issue_links (VList links) = Ok (concat nl (link_lines links)))
  /\ (forall links : list value,
        List.length (link_lines links) = List.length (filter has_end links))
  /\ (forall link : value,
        has_key "outwardIssue" link = true ->
        link_line link
        = Some (link_text "outward" (outward_relation link)
                          (attr link "outwardIssue" (VDict []))))
  /\ (forall link : value,
        has_key "outwardIssue" link = false ->
        has_key "inwardIssue" link = true ->
        link_line link
        = Some (link_text "inward" (inward_relation link)
                          (attr link "inwardIssue" (VDict []))))
  /\ (forall link : value,
        has_key "outwardIssue" link = false ->
        has_key "inwardIssue" link = false ->
        link_line link = None)
  /\ (forall (pre post : list value) (link : value) (acc : list string),
        is_dict link = true ->
        has_key "outwardIssue" link = false ->
        has_key "inwardIssue" link = false ->
        links_loop (pre ++ link :: post) acc = links_loop (pre ++ post) acc)
  /\ (forall link : value,
        link_ok link = true ->
        has_key "outwardIssue" link = true ->
        has_key "inwardIssue" link = false ->
        outward_relation link = VStr "blocks" ->
        exists rest : string,
          process_issue_links (VList [link]) = Ok ("outward: blocks " ++ rest)).
Proof.
  split; [reflexivity |].
  split; [reflexivity |].
  split; [exact process_issue_links_ok |].
  split; [exact link_lines_length |].
  split; [intros link Ho; unfold link_line; now rewrite Ho |].
  split; [intros link Ho Hi; unfold link_line; now rewrite Ho, Hi |].
  split; [intros link Ho Hi; unfold link_line; now rewrite Ho, Hi |].
  split; [exact links_loop_skip |].
  intros link Hok Ho _ Hr.
  rewrite process_issue_links_ok by (simpl; now rewrite Hok).
  unfold link_lines, flat_map, link_line. rewrite Ho.
  unfold link_text. rewrite Hr.
  eexists. cbn [app concat py_str]. reflexivity.
Qed.

Lemma process_issue_links_witness :
  process_issue_links (VList sample_links)
  = Ok ("outward: blocks DHRD-7 [Unknown status] - No summary" ++ nl
        ++ "inward: is related to by DHRD-9 [Open] - Crash").
Proof.
  exact (proj1 (proj2 (proj2 process_issue_links_spec)) sample_links eq_refl).
Defined.

Lemma lookup_remove_key_other (k k' : string) (d : list (string * value)) :
  k <> k' -> lookup k (remove_key k' d) = lookup k d.
Proof.
  intros Hk.
  induction d as [| [k0 x] d IH]; simpl; [reflexivity |].
  destruct (String.eqb_spec k' k0) as [-> | Hk0]; simpl.
  - rewrite IH. now apply String.eqb_neq in Hk as ->.
  - destruct (String.eqb k k0); [reflexivity | exact IH].
Qed.

(** C10: a link with both ends is formatted as outward.  The loop computes
    on it what it computes on the link without its inward end, whatever
    else the link holds; its line is the outward line, with the relation
    of the outward name of the link type; and on a well-formed link the
    loop adds exactly this one line. *)
Theorem outward_takes_precedence
        (d : list (string * value)) (o i : value)
        (Hout : lookup "outwardIssue" d = Some o)
        (Hin : lookup "inwardIssue" d = Some i) :
  (forall (rest : list value) (acc : list string),
      links_loop (VDict d :: rest) acc
      = links_loop (VDict (remove_key "inwardIssue" d) :: rest) acc)
  /\ link_line (VDict d)
     = Some (link_text "outward" (outward_relation (VDict d)) o)
  /\ link_line (VDict (remove_key "inwardIssue" d)) = link_line (VDict d)
  /\ (link_ok (VDict d) = true ->
      links_loop [VDict d] []
      = Ok [link_text "outward" (outward_relation (VDict d)) o]
      /\ process_issue_links (VList [VDict d])
         = Ok (link_text "outward" (outward_relation (VDict d)) o)).
Proof.
  assert (L : forall k, k <> "inwardIssue" ->
                        lookup k (remove_key "inwardIssue" d) = lookup k d)
    by (intros k Hk; now apply lookup_remove_key_other).
  assert (Lo := L "outwardIssue" ltac:(discriminate)).
  assert (Lt := L "type" ltac:(discriminate)).
  assert (E : link_line (VDict d)
              = Some (link_text "outward" (outward_relation (VDict d)) o)).
  { unfold link_line, has_key, attr. now rewrite Hout. }
  split; [| split; [exact E | split]].
  - intros rest acc. cbn [links_loop contains get bind].
    now rewrite Lo, Lt, Hout.
  - unfold link_line, has_key, outward_relation, attr. now rewrite Lo, Lt, Hout.
  - intros Hok. split.
    + rewrite (links_loop_step _ _ _ Hok), E. reflexivity.
    + rewrite process_issue_links_ok by (simpl; now rewrite Hok).
      unfold link_lines, flat_map. rewrite E. cbn [app concat]. reflexivity.
Qed.

Lemma outward_takes_precedence_witness :
  process_issue_links (VList [VDict sample_two_ended_link])
  = Ok "outward: blocks DHRD-1 [Unknown status] - No summary".
Proof.
  exact (proj2 (proj2 (proj2 (proj2
           (outward_takes_precedence sample_two_ended_link
              (VDict [("key", VStr "DHRD-1")]) (VDict [("key", VStr "DHRD-2")])
              eq_refl eq_refl))) eq_refl)).
Defined.

(** ** Dict keys *)

Lemma key_eqb_sym (a b : value) : key_eqb a b = key_eqb b a.
Proof.
  destruct a, b; simpl; try reflexivity;
    try apply Z.eqb_sym; apply String.eqb_sym.
Qed.

Lemma key_eqb_trans (a b c : value) :
  key_eqb a b = true -> key_eqb b c = true -> key_eqb a c = true.
Proof.
  destruct a, b, c; simpl; try discriminate; try reflexivity; intros H1 H2;
    first [ apply Z.eqb_eq in H1; apply Z.eqb_eq in H2; apply Z.eqb_eq; lia
          | apply String.eqb_eq in H1; apply String.eqb_eq in H2;
            apply String.eqb_eq; congruence ].
Qed.

Lemma key_eqb_congr (a b c : value) :
  key_eqb a b = true -> key_eqb c a = key_eqb c b.
Proof.
  intros H.
  destruct (key_eqb c a) eqn:E1, (key_eqb c b) eqn:E2; try reflexivity.
  - now rewrite (key_eqb_trans _ _ _ E1 H) in E2.
  - rewrite key_eqb_sym in H. now rewrite (key_eqb_trans _ _ _ E2 H) in E1.
Qed.

Lemma dict_find_congr {A : Type} (a b : value) (d : dict A) :
  key_eqb a b = true -> dict_find a d = dict_find b d.
Proof.
  intros H. induction d as [| [k x] d IH]; simpl; [reflexivity |].
  rewrite (key_eqb_sym a k), (key_eqb_sym b k), (key_eqb_congr _ _ k H), IH.
  reflexivity.
Qed.

Lemma dict_find_set {A : Type} (k a : value) (x : A) (d : dict A) :
  dict_find k (dict_set a x d)
  = if key_eqb k a then Some x else dict_find k d.
Proof.
  induction d as [| [k' y] d IH]; simpl; [reflexivity |].
  destruct (key_eqb a k') eqn:E; simpl.
  - rewrite (key_eqb_congr _ _ k E). now destruct (key_eqb k k').
  - rewrite IH.
    destruct (key_eqb k k') eqn:E1, (key_eqb k a) eqn:E2; try reflexivity.
    rewrite key_eqb_sym in E2. now rewrite (key_eqb_trans _ _ _ E2 E1) in E.
Qed.

Lemma dict_set_distinct {A : Type} (a : value) (x : A) (d : dict A) :
  distinct_keys d -> distinct_keys (dict_set a x d).
Proof.
  induction d as [| [k' y] d IH]; simpl; [now split |].
  intros [Hk Hd].
  destruct (key_eqb a k') eqn:E; simpl.
  - now split.
  - split; [| now apply IH].
    rewrite dict_find_set, key_eqb_sym, E. exact Hk.
Qed.

(** ** Durations by author *)

Lemma author_total_absent (dflt : string) (k : value) (entries : list value) :
  has_author dflt k entries = false -> author_total dflt k entries = 0.
Proof.
  induction entries as [| e es IH]; simpl; [reflexivity |].
  intros H. apply orb_false_iff in H as [He Hes].
  rewrite He. now apply IH.
Qed.

(** The default only matters for the text of the key: an entry is well
    formed or not whatever the default is. *)
Lemma add_entry_ok (entry : value) (temps : dict Z) :
  entry_ok entry = true ->
  add_entry entry temps
  = Ok (dict_set (entry_author "Inconnu" entry)
                 (match dict_find (entry_author "Inconnu" entry) temps with
                  | Some t => t
                  | None => 0
                  end + entry_seconds entry)
                 temps).
Proof.
  unfold entry_ok, add_entry, entry_author, entry_seconds. intros H.
  apply andb_true_iff in H as [H Ht].
  apply andb_true_iff in H as [H Hh].
  apply andb_true_iff in H as [Hd Ha].
  rewrite (get_attr _ _ _ Hd), bind_ok, (get_attr _ _ _ Ha), bind_ok,
    (get_attr _ _ _ Hd), bind_ok.
  assert (Hh' : hashable (attr (attr entry "author" (VDict [])) "displayName"
                               (VStr "Inconnu")) = true).
  { destruct (attr entry "author" (VDict [])) as [| | | | | a]; try reflexivity.
    unfold attr in Hh |- *. destruct (lookup "displayName" a); [exact Hh | reflexivity]. }
  rewrite Hh'.
  destruct (as_int (attr entry "timeSpentSeconds" (VInt 0))); [reflexivity | discriminate].
Qed.

Lemma add_entries_ok (entries : list value) (acc : dict Z) :
  forallb entry_ok entries = true ->
  distinct_keys acc ->
  exists temps : dict Z,
    add_entries entries acc = Ok temps
    /\ distinct_keys temps
    /\ forall k : value,
         dict_find k temps
         = if has_author "Inconnu" k entries
           then Some (author_total "Inconnu" k entries
                      + match dict_find k acc with Some t => t | None => 0 end)
           else dict_find k acc.
Proof.
  revert acc.
  induction entries as [| e es IH]; intros acc H Hacc.
  - exists acc. split; [reflexivity | split; [exact Hacc | reflexivity]].
  - simpl in H. apply andb_true_iff in H as [He Hes].
    cbn [add_entries]. rewrite (add_entry_ok _ _ He), bind_ok.
    set (a := entry_author "Inconnu" e).
    set (cur := match dict_find a acc with Some t => t | None => 0 end).
    destruct (IH (dict_set a (cur + entry_seconds e) acc) Hes
                 (dict_set_distinct _ _ _ Hacc)) as (temps & E & Hd & Hf).
    exists temps. split; [exact E |]. split; [exact Hd |].
    intros k. rewrite Hf, dict_find_set.
    cbn [has_author existsb author_total fold_right]. fold a.
    fold (has_author "Inconnu" k es). fold (author_total "Inconnu" k es).
    destruct (key_eqb k a) eqn:Eka; cbn [orb].
    + assert (Ecur : match dict_find k acc with Some t => t | None => 0 end = cur)
        by (unfold cur; now rewrite (dict_find_congr _ _ acc Eka)).
      rewrite Ecur.
      destruct (has_author "Inconnu" k es) eqn:Eh.
      * f_equal. lia.
      * rewrite (author_total_absent _ _ _ Eh). f_equal. lia.
    + reflexivity.
Qed.

Lemma format_totals_find (temps : dict Z) (out : dict string) (k : value) :
  distinct_keys temps ->
  dict_find k (format_totals temps out)
  = match dict_find k temps with
    | Some t => Some (convert_seconds_to_hm t)
    | None => dict_find k out
    end.
Proof.
  revert out.
  induction temps as [| [a t] temps IH]; intros out H; [reflexivity |].
  destruct H as [Ha Hd].
  cbn [format_totals dict_find]. rewrite (IH _ Hd), dict_find_set.
  destruct (key_eqb k a) eqn:E; [| reflexivity].
  now rewrite (dict_find_congr _ _ temps E), Ha.
Qed.

(** C3, with the default key the function uses: the accumulation step of
    [calculer_temps_par_collaborateur] gives, for every list of work-log
    entries, a total under the display name of every author of an entry and
    under no other key, the total of an author being the sum of the
    durations of that author's entries (an entry without a duration counts
    for 0); an entry without an author or without a display name is counted
    under [Inconnu].  The function then formats every total with
    [convert_seconds_to_hm]. *)
Theorem temps_par_collaborateur_spec :
  sums_by_author "Inconnu"
  /\ (forall entries : list value,
        forallb entry_ok entries = true ->
        exists (temps : dict Z) (formatted : dict string),
          temps_par_collaborateur (VList entries) = Ok temps
          /\ calculer_temps_par_collaborateur (VList entries) = Ok formatted
          /\ forall k : value,
               dict_find k formatted
               = option_map convert_seconds_to_hm (dict_find k temps))
  /\ entry_author "Inconnu" (VDict []) = VStr "Inconnu"
  /\ entry_seconds (VDict []) = 0
  /\ calculer_temps_par_collaborateur (VList sample_worklog)
     = Ok [(VStr "A", "1h 0m"); (VStr "B", "0h 1m")].
Proof.
  split.
  { intros entries H.
    destruct (add_entries_ok entries [] H I) as (temps & E & _ & Hf).
    exists temps. split; [exact E |].
    intros k. rewrite Hf. cbn [dict_find].
    destruct (has_author "Inconnu" k entries); [f_equal; lia | reflexivity]. }
  split; [| repeat split; reflexivity].
  intros entries H.
  destruct (add_entries_ok entries [] H I) as (temps & E & Hd & _).
  exists temps, (format_totals temps []).
  assert (E' : temps_par_collaborateur (VList entries) = Ok temps) by exact E.
  split; [exact E' |].
  split; [unfold calculer_temps_par_collaborateur; now rewrite E' |].
  intros k. rewrite (format_totals_find _ _ _ Hd).
  now destruct (dict_find k temps).
Qed.

Lemma temps_par_collaborateur_witness :
  exists temps : dict Z,
    temps_par_collaborateur (VList sample_worklog) = Ok temps
    /\ forall k : value,
         dict_find k temps
         = if has_author "Inconnu" k sample_worklog
           then Some (author_total "Inconnu" k sample_worklog)
           else None.
Proof.
  exact (proj1 temps_par_collaborateur_spec sample_worklog eq_refl).
Defined.

(** The statement fails with the default key [Unknown]: the duration of an
    entry that has no author is found under [Inconnu], and nothing is
    under [Unknown]. *)
Lemma sums_by_author_unknown_fails : ~ sums_by_author "Unknown".
Proof.
  intros H.
  destruct (H [VDict [("timeSpentSeconds", VInt 60)]] eq_refl) as (temps & E & Hf).
  injection E as <-.
  specialize (Hf (VStr "Unknown")). discriminate Hf.
Qed.

(** ** Subtasks *)

Lemma subtasks_loop_ok (subtasks : list value) (acc : list string) :
  forallb issue_ref_ok subtasks = true ->
  subtasks_loop subtasks acc = Ok (acc ++ map subtask_text subtasks)%list.
Proof.
  revert acc.
  induction subtasks as [| t ts IH]; simpl; intros acc H.
  - now rewrite app_nil_r.
  - apply andb_true_iff in H as [Ht Hts].
    assert (Hd : is_dict t = true)
      by (unfold issue_ref_ok in Ht; now apply andb_true_iff in Ht as [Hd _]).
    rewrite (get_attr _ _ _ Hd), bind_ok, (status_of_ok _ Ht), bind_ok,
      (summary_of_ok _ Ht), bind_ok, (IH _ Hts), <- app_assoc.
    reflexivity.
Qed.

Lemma process_subtasks_ok (subtasks : list value) :
  forallb issue_ref_ok subtasks = true ->
  process_subtasks (VList subtasks) = Ok (subtask_texts subtasks).
Proof.
  intros H. destruct subtasks as [| t ts]; [reflexivity |].
  unfold process_subtasks.
  change (truthy (VList (t :: ts))) with true.
  change (negb true) with false. cbv iota.
  change (iter (VList (t :: ts))) with (Ok (t :: ts)).
  now rewrite bind_ok, (subtasks_loop_ok _ _ H), bind_ok.
Qed.

(** ** Totality of the normalizers *)

Lemma list_or_nothing_cases (ok : value -> bool) (v : value) :
  list_or_nothing ok v = true ->
  truthy v = false \/ exists items, v = VList items /\ forallb ok items = true.
Proof.
  unfold list_or_nothing. intros H.
  apply orb_true_iff in H as [H | H].
  - left. now apply negb_true_iff.
  - right. destruct v; try discriminate. now exists l.
Qed.

Lemma process_comments_total : total_on comment_field_ok process_comments.
Proof.
  intros v H. unfold comment_field_ok in H.
  apply orb_true_iff in H as [H | H].
  - exists EmptyString. unfold process_comments. now rewrite H.
  - apply andb_true_iff in H as [Hd Hc].
    destruct v as [| | | | | d]; try discriminate.
    destruct (list_or_nothing_cases _ _ Hc) as [Hf | (cs & Ecs & Hok)].
    + exists EmptyString. unfold process_comments.
      destruct (truthy (VDict d)); [| reflexivity]. cbn [negb].
      rewrite get_attr by reflexivity. now rewrite bind_ok, Hf.
    + unfold attr in Ecs.
      destruct (lookup "comments" d) as [c |] eqn:El; [| discriminate].
      subst c. eexists.
      now apply (process_comments_ok d cs).
Qed.

Lemma falsy_list_total (ok : value -> bool) (f : value -> result string) :
  (forall v, truthy v = false -> f v = Ok EmptyString) ->
  (forall items, forallb ok items = true -> exists s, f (VList items) = Ok s) ->
  total_on (list_or_nothing ok) f.
Proof.
  intros Hf Hl v H.
  destruct (list_or_nothing_cases _ _ H) as [Hv | (items & -> & Hok)].
  - exists EmptyString. now apply Hf.
  - now apply Hl.
Qed.

Lemma process_issue_links_total :
  total_on (list_or_nothing link_ok) process_issue_links.
Proof.
  apply falsy_list_total.
  - intros v H. unfold process_issue_links. now rewrite H.
  - intros items H. eexists. now apply process_issue_links_ok.
Qed.

Lemma process_subtasks_total :
  total_on (list_or_nothing issue_ref_ok) process_subtasks.
Proof.
  apply falsy_list_total.
  - intros v H. unfold process_subtasks. now rewrite H.
  - intros items H. eexists. now apply process_subtasks_ok.
Qed.

Lemma process_fix_versions_total :
  total_on (list_or_nothing version_ok) process_fix_versions.
Proof.
  apply falsy_list_total.
  - intros v H. unfold process_fix_versions. now rewrite H.
  - intros items H. eexists. now apply process_fix_versions_ok.
Qed.

Lemma process__versions_total :
  total_on (list_or_nothing version_ok) process__versions.
Proof. exact process_fix_versions_total. Qed.

(** C5, on the arguments the functions are written for: every normalizer
    returns a text, and does not raise, on an argument that is absent or
    empty and on a list of records in which every attribute may be missing
    and the attributes that are there have the shape the function reads:
    the author of a comment, the type of a link, the fields of an issue and
    the status in them are records, the end of a link is an issue, the name
    of a version is a str. *)
Theorem normalizers_total_on_records :
  total_on comment_field_ok process_comments
  /\ total_on (list_or_nothing link_ok) process_issue_links
  /\ total_on (list_or_nothing issue_ref_ok) process_subtasks
  /\ total_on (list_or_nothing version_ok) process_fix_versions
  /\ total_on (list_or_nothing version_ok) process__versions.
Proof.
  split; [exact process_comments_total |].
  split; [exact process_issue_links_total |].
  split; [exact process_subtasks_total |].
  split; [exact process_fix_versions_total | exact process__versions_total].
Qed.

Lemma normalizers_total_on_records_witness :
  exists s : string,
    process_comments
      (VDict [("comments",
               VList [VDict [("created", VStr "2024-01-01"); ("body", VStr "hi")]])])
    = Ok s.
Proof.
  exact (proj1 normalizers_total_on_records
           (VDict [("comments",
                    VList [VDict [("created", VStr "2024-01-01"); ("body", VStr "hi")]])])
           eq_refl).
Defined.

(** No normalizer is total on all arguments: a comment whose author is a
    str, a link whose end is [None], a subtask whose fields are [None] and
    a version whose name is [None] make them raise. *)
Lemma normalizers_raise_on_malformed :
  process_comments
    (VDict [("comments",
             VList [VDict [("author", VStr "Bob");
                           ("created", VStr "2024-01-01");
                           ("body", VStr "hi")]])])
  = Raise AttributeError
  /\ process_issue_links (VList [VDict [("outwardIssue", VNone)]])
     = Raise AttributeError
  /\ process_subtasks (VList [VDict [("fields", VNone)]]) = Raise AttributeError
  /\ process_fix_versions (VList [VDict [("name", VNone)]]) = Raise TypeError
  /\ process__versions (VList [VDict [("name", VNone)]]) = Raise TypeError
  /\ ~ total process_comments
  /\ ~ total process_issue_links
  /\ ~ total process_subtasks
  /\ ~ total process_fix_versions
  /\ ~ total process__versions.
Proof.
  repeat split; try reflexivity; intros H.
  - destruct (H (VDict [("comments", VList [VDict [("author", VStr "Bob")]])]))
      as [s E]; discriminate E.
  - destruct (H (VList [VDict [("outwardIssue", VNone)]])) as [s E]; discriminate E.
  - destruct (H (VList [VDict [("fields", VNone)]])) as [s E]; discriminate E.
  - destruct (H (VList [VDict [("name", VNone)]])) as [s E]; discriminate E.
  - destruct (H (VList [VDict [("name", VNone)]])) as [s E]; discriminate E.
Qed.

(** ** Rows *)

Lemma get_inv (v : value) (k : string) (dflt x : value) :
  get v k dflt = Ok x -> is_dict v = true /\ x = attr v k dflt.
Proof.
  destruct v; simpl; intros H; try discriminate.
  injection H as <-. now split.
Qed.

Lemma get_nested_total (fields : value) (k sub : string) (dflt other : value) :
  is_dict fields = true ->
  nested_ok fields k = true ->
  exists x : value, get_nested fields k sub dflt other = Ok x.
Proof.
  intros Hd H. unfold get_nested, nested_ok in *.
  rewrite (get_attr _ _ _ Hd), bind_ok.
  destruct (truthy (attr fields k VNone)) eqn:Et; [| now eexists].
  cbn [negb orb] in H.
  assert (E : attr fields k (VDict []) = attr fields k VNone).
  { destruct fields as [| | | | | d]; try discriminate.
    unfold attr in *. destruct (lookup k d); [reflexivity | discriminate Et]. }
  rewrite (get_attr _ _ _ Hd), bind_ok, E, (get_attr _ _ _ H).
  now eexists.
Qed.

(** A nested scalar that is missing or null has the value of the [else]. *)
Lemma get_nested_default (fields : value) (k sub : string) (dflt other x : value) :
  truthy (attr fields k VNone) = false ->
  get_nested fields k sub dflt other = Ok x ->
  x = other.
Proof.
  intros Hf H. unfold get_nested in H.
  destruct (get fields k VNone) as [c |] eqn:E; [| discriminate H].
  apply get_inv in E as [_ ->]. cbn [bind] in H. rewrite Hf in H.
  now injection H as <-.
Qed.

Lemma join_strings_total (sep : string) (v : value) :
  strings_ok v = true -> exists s : string, join sep v = Ok s.
Proof.
  destruct v; try discriminate. simpl. intros H.
  unfold join. cbn [iter bind]. rewrite (strings_of_texts _ H). now eexists.
Qed.

Lemma component_ok_split (items : list value) :
  forallb component_ok items = true ->
  forallb is_dict items = true
  /\ forallb is_string (map (fun x => attr x "name" (VStr EmptyString)) items) = true.
Proof.
  induction items as [| c cs IH]; simpl; intros H; [now split |].
  apply andb_true_iff in H as [Hc Hcs].
  apply andb_true_iff in Hc as [Hd Hn].
  destruct (IH Hcs) as [IH1 IH2].
  now rewrite Hd, Hn, IH1, IH2.
Qed.

Lemma components_total (v : value) :
  components_ok v = true ->
  exists s : string,
    (component_items <- iter v ;;
     component_names <- get_each "name" (VStr EmptyString) component_items ;;
     join ", " (VList component_names)) = Ok s.
Proof.
  destruct v; try discriminate. simpl. intros H.
  destruct (component_ok_split _ H) as [Hd Hn].
  rewrite (get_each_dicts _ _ _ Hd), bind_ok.
  apply join_strings_total. exact Hn.
Qed.

Lemma worklog_total (v : value) :
  worklog_ok v = true ->
  exists d : dict string,
    (worklogs <- get v "worklogs" (VList []) ;;
     calculer_temps_par_collaborateur worklogs) = Ok d.
Proof.
  unfold worklog_ok. intros H.
  apply andb_true_iff in H as [Hd He].
  rewrite (get_attr _ _ _ Hd), bind_ok.
  destruct (attr v "worklogs" (VList [])) as [| | | | entries |]; try discriminate.
  destruct (add_entries_ok entries [] He I) as (temps & E & _).
  unfold calculer_temps_par_collaborateur, temps_par_collaborateur.
  cbn [iter bind]. rewrite E. now eexists.
Qed.

Ltac split_andb :=
  repeat match goal with
         | H : (_ && _)%bool = true |- _ => apply andb_true_iff in H as [? ?]
         end.

(** Every step of the loop body succeeds on an issue of the expected
    shape. *)
Lemma process_issue_total (issue : value) :
  issue_ok issue = true -> exists r : row, process_issue issue = Ok r.
Proof.
  unfold issue_ok. set (fields := attr issue "fields" (VDict [])).
  intros H. split_andb.
  assert (Hwd : is_dict (attr fields "worklog" (VDict [])) = true).
  { match goal with
    | Hw : worklog_ok _ = true |- _ =>
        unfold worklog_ok in Hw; now apply andb_true_iff in Hw as [Hw _]
    end. }
  unfold process_issue.
  rewrite !(get_attr issue) by assumption. cbn [bind]. fold fields.
  repeat match goal with
         | |- context [get_nested fields ?k ?sub ?dflt ?other] =>
             let x := fresh "x" in
             destruct (get_nested_total fields k sub dflt other) as [x ->];
             [assumption | assumption |]; cbn [bind]
         end.
  rewrite !(get_attr fields) by assumption. cbn [bind].
  match goal with
  | Hl : strings_ok _ = true |- _ =>
      destruct (join_strings_total ", " _ Hl) as [labels ->]
  end.
  cbn [bind].
  match goal with
  | Hc : components_ok _ = true |- _ =>
      destruct (components_total _ Hc) as [components Ec]
  end.
  destruct (iter (attr fields "components" (VList []))) as [items |];
    [| discriminate Ec].
  cbn [bind] in Ec |- *.
  destruct (get_each "name" (VStr EmptyString) items) as [names |];
    [| discriminate Ec].
  cbn [bind] in Ec |- *. rewrite Ec. cbn [bind].
  destruct (process__versions_total (attr fields "versions" (VList [])))
    as [versions ->]; [assumption |].
  destruct (process_fix_versions_total (attr fields "fixVersions" (VList [])))
    as [fix_versions ->]; [assumption |].
  destruct (process_issue_links_total (attr fields "issuelinks" (VList [])))
    as [issue_links ->]; [assumption |].
  destruct (process_subtasks_total (attr fields "subtasks" (VList [])))
    as [subtasks ->]; [assumption |].
  destruct (process_comments_total (attr fields "comment" VNone))
    as [comments ->]; [assumption |].
  cbn [bind].
  match goal with
  | Hw : worklog_ok _ = true |- _ =>
      destruct (worklog_total _ Hw) as [worklog Ew]
  end.
  rewrite (get_attr _ _ _ Hwd) in Ew |- *. cbn [bind] in Ew |- *.
  rewrite Ew. cbn [bind].
  now eexists.
Qed.

(** Whatever the issue, a row that is produced has the columns of the
    schema. *)
Lemma process_issue_columns (issue : value) (r : row) :
  process_issue issue = Ok r -> map fst r = columns.
Proof.
  unfold process_issue. intros H.
  repeat match goal with
         | H : bind ?c _ = Ok _ |- _ =>
             destruct c; cbn [bind] in H; [| discriminate H]
         end.
  injection H as <-. reflexivity.
Qed.


(** The cells of a produced row that hold a scalar of the issue: a plain
    scalar is the field or the empty text, a nested scalar that is missing
    or null is the default of its column. *)
Lemma process_issue_defaults (issue : value) (r : row) :
  process_issue issue = Ok r ->
  let fields := attr issue "fields" (VDict []) in
  cell_of "Key" r = Some (CVal (attr issue "key" (VStr EmptyString)))
  /\ cell_of "Summary" r = Some (CVal (attr fields "summary" (VStr EmptyString)))
  /\ cell_of "Description" r = Some (CVal (attr fields "description" (VStr EmptyString)))
  /\ cell_of "Created" r = Some (CVal (attr fields "created" (VStr EmptyString)))
  /\ cell_of "Updated" r = Some (CVal (attr fields "updated" (VStr EmptyString)))
  /\ cell_of "Resolution Date" r
     = Some (CVal (attr fields "resolutiondate" (VStr EmptyString)))
  /\ cell_of "Release Note" r
     = Some (CVal (attr fields "customfield_13570" (VStr EmptyString)))
  /\ cell_of "Due Date" r = Some (CVal (attr fields "duedate" (VStr EmptyString)))
  /\ cell_of "Target Version" r = Some (CVal (attr fields "customfield_13751" VNone))
  /\ cell_of "Module-Feature" r = Some (CVal (attr fields "customfield_19850" VNone))
  /\ (truthy (attr fields "issuetype" VNone) = false ->
      cell_of "Type" r = Some (CVal (VStr EmptyString)))
  /\ (truthy (attr fields "status" VNone) = false ->
      cell_of "Status" r = Some (CVal (VStr EmptyString)))
  /\ (truthy (attr fields "priority" VNone) = false ->
      cell_of "Priority" r = Some (CVal (VStr EmptyString)))
  /\ (truthy (attr fields "reporter" VNone) = false ->
      cell_of "Reporter" r = Some (CVal (VStr EmptyString)))
  /\ (truthy (attr fields "assignee" VNone) = false ->
      cell_of "Assignee" r = Some (CVal (VStr EmptyString)))
  /\ (truthy (attr fields "resolution" VNone) = false ->
      cell_of "Resolution" r = Some (CVal (VStr "Unresolved")))
  /\ (truthy (attr fields "parent" VNone) = false ->
      cell_of "Parent Issue" r = Some (CVal (VStr EmptyString)))
  /\ (truthy (attr fields "watches" VNone) = false ->
      cell_of "Watchers" r = Some (CVal (VInt 0))).
Proof.
  unfold process_issue. intros H.
  repeat match goal with
         | H : bind ?c _ = Ok _ |- _ =>
             destruct c eqn:?; cbn [bind] in H; [| discriminate H]
         end.
  injection H as <-.
  repeat match goal with
         | E : get _ _ _ = Ok _ |- _ => apply get_inv in E as [_ ->]
         end.
  cbv zeta.
  repeat split; try reflexivity; intros Hf;
    match goal with
    | E : get_nested _ ?k _ _ _ = Ok _ |- cell_of _ _ = _ =>
        match type of Hf with
        | context [k] => apply (get_nested_default _ _ _ _ _ _ Hf) in E; subst
        end
    end; reflexivity.
Qed.

Lemma process_issues_rows (issues : list value) (acc rows : list row) :
  process_issues issues acc = Ok rows ->
  Forall (fun r => map fst r = columns) acc ->
  Forall (fun r => map fst r = columns) rows
  /\ List.length rows = (List.length acc + List.length issues)%nat.
Proof.
  revert acc.
  induction issues as [| issue issues IH]; intros acc H Hacc.
  - injection H as <-. split; [exact Hacc | simpl; lia].
  - cbn [process_issues] in H.
    destruct (process_issue issue) as [r |] eqn:E; [| discriminate H].
    cbn [bind] in H.
    destruct (IH _ H) as [HF HL].
    + apply Forall_app. split; [exact Hacc |].
      constructor; [now apply (process_issue_columns issue) | constructor].
    + split; [exact HF |]. rewrite HL, length_app. simpl. lia.
Qed.




(** ** Pagination client *)

Lemma failed_no_items (r : response) : failed r = true -> page_items r = None.
Proof.
  destruct r as [| status_code body]; simpl; [reflexivity |].
  intros H. apply negb_true_iff in H. now rewrite H.
Qed.

Lemma records_app (evs1 evs2 : list event) :
  records (evs1 ++ evs2) = (records evs1 ++ records evs2)%list.
Proof. apply flat_map_app. Qed.

Lemma records_last (evs : list event) (req : request) (r : response) :
  page_items r = None -> records (evs ++ [(req, r)]) = records evs.
Proof.
  intros H. rewrite records_app. unfold records at 2. simpl.
  rewrite H. now rewrite !app_nil_r.
Qed.

(** A page that fails or is empty is the last exchange of the loop. *)
Lemma page_run_stops (total n : Z) (evs : list event) :
  page_run total n evs ->
  forall (pre post : list event) (ev : event),
    evs = (pre ++ ev :: post)%list ->
    page_items (snd ev) = None \/ page_items (snd ev) = Some [] ->
    post = [].
Proof.
  induction 1 as [n Hn | n r Hn Hr | n r items evs Hn Hr Hi Hrun IH];
    intros pre post ev E Hev.
  - now destruct pre.
  - destruct pre as [| p pre]; [now injection E as _ <- |].
    injection E as _ E. now destruct pre.
  - destruct pre as [| p pre].
    + injection E as <- _. simpl in Hev. rewrite Hr in Hev.
      destruct Hev as [Hev | Hev]; [discriminate Hev |].
      injection Hev as ->. now contradiction Hi.
    + injection E as _ E. exact (IH pre post ev E Hev).
Qed.

(** The loop never holds more than the target when no page holds more
    than was asked for, and the requests of a run whose pages are exact
    are at the offsets 0, 100, 200, ... from its start. *)
Lemma page_run_exact (total n : Z) (evs : list event) :
  page_run total n evs ->
  forallb exact_page evs = true ->
  forall (k : nat) (req : request) (r : response),
    nth_error evs k = Some (req, r) ->
    req = page_request total (n + batch_size * Z.of_nat k)
    /\ n + batch_size * Z.of_nat k < total.
Proof.
  unfold batch_size.
  induction 1 as [n Hn | n r Hn Hr | n r items evs Hn Hr Hi Hrun IH];
    intros Hex k req r' Hk.
  - now destruct k.
  - destruct k as [| k]; [| now destruct k].
    injection Hk as <- <-. rewrite Z.mul_0_r, Z.add_0_r. now split.
  - destruct k as [| k].
    + injection Hk as <- <-. rewrite Z.mul_0_r, Z.add_0_r. now split.
    + cbn [forallb] in Hex. apply andb_true_iff in Hex as [He Hex].
      unfold exact_page, page_request in He. cbn [fst snd] in He.
      rewrite Hr in He. apply Z.eqb_eq in He.
      cbn [nth_error] in Hk.
      assert (Hlt : n + Z.of_nat (List.length items) < total).
      { inversion Hrun; subst; [now destruct k | lia | lia]. }
      assert (Hl : Z.of_nat (List.length items) = 100)
        by (unfold batch_size in He; lia).
      rewrite Hl in *.
      destruct (IH Hex k req r' Hk) as [E1 E2].
      replace (n + 100 * Z.of_nat (S k)) with (n + 100 + 100 * Z.of_nat k) by lia.
      now split.
Qed.

Lemma page_run_exact_length (total n : Z) (evs : list event) :
  page_run total n evs ->
  forallb exact_page evs = true ->
  n + Z.of_nat (List.length (records evs)) <= Z.max n total.
Proof.
  induction 1 as [n Hn | n r Hn Hr | n r items evs Hn Hr Hi Hrun IH]; intros Hex.
  - simpl. lia.
  - unfold records. simpl.
    cbn [forallb] in Hex. apply andb_true_iff in Hex as [He _].
    unfold exact_page, page_request in He. cbn [fst snd] in He.
    destruct Hr as [Hr | Hr]; rewrite Hr in *; simpl; lia.
  - cbn [forallb] in Hex. apply andb_true_iff in Hex as [He Hex].
    unfold exact_page, page_request in He. cbn [fst snd] in He.
    rewrite Hr in He. apply Z.eqb_eq in He.
    specialize (IH Hex).
    change (records ((page_request total n, r) :: evs))
      with ((match page_items r with Some i => i | None => [] end)
              ++ records evs)%list.
    rewrite Hr, length_app, Nat2Z.inj_add.
    unfold batch_size in He. lia.
Qed.

(** When every page comes back in full the loop ends with exactly the
    target. *)
Lemma page_run_complete (total n : Z) (evs : list event) :
  page_run total n evs ->
  forallb exact_page evs = true ->
  forallb page_received evs = true ->
  n <= total ->
  n + Z.of_nat (List.length (records evs)) = total.
Proof.
  induction 1 as [n Hn | n r Hn Hr | n r items evs Hn Hr Hi Hrun IH];
    intros Hex Hrec Hle.
  - simpl. lia.
  - cbn [forallb] in Hex, Hrec.
    apply andb_true_iff in Hex as [He _]. apply andb_true_iff in Hrec as [Hv _].
    unfold exact_page, page_received, page_request in *. cbn [fst snd] in *.
    destruct Hr as [Hr | Hr]; rewrite Hr in *; [discriminate Hv |].
    apply Z.eqb_eq in He. unfold batch_size in He. simpl in He. lia.
  - cbn [forallb] in Hex, Hrec.
    apply andb_true_iff in Hex as [He Hex]. apply andb_true_iff in Hrec as [_ Hrec].
    unfold exact_page, page_request in He. cbn [fst snd] in He.
    rewrite Hr in He. apply Z.eqb_eq in He. unfold batch_size in He.
    change (records ((page_request total n, r) :: evs))
      with ((match page_items r with Some i => i | None => [] end)
              ++ records evs)%list.
    rewrite Hr, length_app, Nat2Z.inj_add.
    assert (n + Z.of_nat (List.length items) <= total) by lia.
    specialize (IH Hex Hrec ltac:(assumption)). lia.
Qed.

Section ClientProperties.

Variable World : Type.
Variable post : World -> request -> World * response.

Lemma fetch_pages_run (fuel : nat) :
  forall (total : Z) (w : World) (sent : list event) (all_issues : list value)
         (sent' : list event) (out : list value),
    fetch_pages World post fuel total w sent all_issues
                (Z.of_nat (List.length all_issues)) = Some (sent', out) ->
    exists evs : list event,
      sent' = (sent ++ evs)%list
      /\ page_run total (Z.of_nat (List.length all_issues)) evs
      /\ out = (all_issues ++ records evs)%list.
Proof.
  induction fuel as [| fuel IH]; intros total w sent all_issues sent' out H;
    cbn [fetch_pages] in H;
    destruct (Z.of_nat (List.length all_issues) <? total) eqn:Hlt.
  - discriminate H.
  - injection H as <- <-. exists []. rewrite !app_nil_r.
    repeat split. apply run_done. now apply Z.ltb_ge.
  - apply Z.ltb_lt in Hlt.
    fold (page_request total (Z.of_nat (List.length all_issues))) in H.
    destruct (post w (page_request total (Z.of_nat (List.length all_issues))))
      as [w' r].
    destruct (page_items r) as [[| i items] |] eqn:Hr.
    + injection H as <- <-. eexists. split; [reflexivity |].
      split; [apply run_stop; [exact Hlt | now right] |].
      unfold records. simpl. rewrite Hr. now rewrite !app_nil_r.
    + replace (Z.of_nat (List.length all_issues)
               + Z.of_nat (List.length (i :: items)))
        with (Z.of_nat (List.length (all_issues ++ i :: items))) in H
        by (rewrite length_app; lia).
      destruct (IH _ _ _ _ _ _ H) as (evs & E1 & E2 & E3).
      exists ((page_request total (Z.of_nat (List.length all_issues)), r) :: evs).
      split; [now rewrite E1, <- app_assoc |].
      split.
      * apply (run_more _ _ _ (i :: items)); [exact Hlt | exact Hr | discriminate |].
        replace (Z.of_nat (List.length all_issues)
                 + Z.of_nat (List.length (i :: items)))
          with (Z.of_nat (List.length (all_issues ++ i :: items)))
          by (rewrite length_app; lia).
        exact E2.
      * rewrite E3, <- app_assoc. unfold records at 2. cbn [flat_map snd].
        now rewrite Hr.
    + injection H as <- <-. eexists. split; [reflexivity |].
      split; [apply run_stop; [exact Hlt | now left] |].
      unfold records. simpl. rewrite Hr. now rewrite !app_nil_r.
  - injection H as <- <-. exists []. rewrite !app_nil_r.
    repeat split. apply run_done. now apply Z.ltb_ge.
Qed.

(** The loop ends: a page that lets it go on adds a record, so one unit
    of fuel for each record that is still missing is enough. *)
Lemma fetch_pages_fuel (fuel : nat) :
  forall (total : Z) (w : World) (sent : list event) (all_issues : list value)
         (start_at : Z),
    (Z.to_nat (total - Z.of_nat (List.length all_issues)) <= fuel)%nat ->
    exists res, fetch_pages World post fuel total w sent all_issues start_at
                = Some res.
Proof.
  induction fuel as [| fuel IH]; intros total w sent all_issues start_at Hf;
    cbn [fetch_pages];
    destruct (Z.of_nat (List.length all_issues) <? total) eqn:Hlt;
    try (now eexists).
  - apply Z.ltb_lt in Hlt. lia.
  - apply Z.ltb_lt in Hlt.
    destruct (post w _) as [w' r].
    destruct (page_items r) as [[| i items] |]; try (now eexists).
    apply IH. rewrite length_app. cbn [List.length]. lia.
Qed.

(** More fuel does not change a result. *)
Lemma fetch_pages_more_fuel (fuel : nat) :
  forall (fuel' : nat) (total : Z) (w : World) (sent : list event)
         (all_issues : list value) (start_at : Z) res,
    (fuel <= fuel')%nat ->
    fetch_pages World post fuel total w sent all_issues start_at = Some res ->
    fetch_pages World post fuel' total w sent all_issues start_at = Some res.
Proof.
  induction fuel as [| fuel IH];
    intros fuel' total w sent all_issues start_at res Hle H;
    destruct fuel' as [| fuel']; try lia;
    cbn [fetch_pages] in H |- *;
    destruct (Z.of_nat (List.length all_issues) <? total); try exact H;
    try discriminate H.
  destruct (post w _) as [w' r].
  destruct (page_items r) as [[| i items] |]; try exact H.
  apply IH; [lia | exact H].
Qed.

(** What a run of [fetch_jira_issues] is made of: the probe, then
    nothing when the probe does not give a target, the exchanges of the
    loop otherwise; the function returns the records of the pages. *)
Lemma fetch_jira_issues_run (fuel : nat) (w : World) (max_issues : option Z)
      (evs : list event) (out : result (list value)) :
  fetch_jira_issues World post fuel w max_issues = Some (evs, out) ->
  exists (pages : list event),
    evs = (CountProbe, snd (post w CountProbe)) :: pages
    /\ match count_target max_issues (snd (post w CountProbe)) with
       | Raise e => pages = [] /\ out = Raise e
       | Ok None => pages = [] /\ out = Ok []
       | Ok (Some total) => page_run total 0 pages /\ out = Ok (records pages)
       end.
Proof.
  unfold fetch_jira_issues.
  destruct (post w CountProbe) as [w' r]. cbn [snd].
  destruct (count_target max_issues r) as [[total |] | e]; intros H.
  - destruct (fetch_pages World post fuel total w' [(CountProbe, r)] [] 0)
      as [[sent' all_issues] |] eqn:E; [| discriminate H].
    injection H as <- <-.
    destruct (fetch_pages_run fuel total w' [(CountProbe, r)] [] _ _ E)
      as (pages & E1 & E2 & E3).
    exists pages. repeat split; [exact E1 | exact E2 | now rewrite E3].
  - injection H as <- <-. now exists [].
  - injection H as <- <-. now exists [].
Qed.

Lemma fetch_jira_issues_terminates (w : World) (max_issues : option Z) :
  exists (fuel : nat) (evs : list event) (out : result (list value)),
    forall fuel' : nat,
      (fuel <= fuel')%nat ->
      fetch_jira_issues World post fuel' w max_issues = Some (evs, out).
Proof.
  unfold fetch_jira_issues.
  destruct (post w CountProbe) as [w' r].
  destruct (count_target max_issues r) as [[total |] | e].
  - destruct (fetch_pages_fuel (Z.to_nat total) total w' [(CountProbe, r)] [] 0)
      as [[sent' all_issues] E]; [simpl; lia |].
    exists (Z.to_nat total), sent', (Ok all_issues). intros fuel' Hle.
    now rewrite (fetch_pages_more_fuel _ _ _ _ _ _ _ _ Hle E).
  - exists O. now eexists _, _.
  - exists O. now eexists _, _.
Qed.

End ClientProperties.

Lemma page_run_full_step (total n : Z) (evs : list event) :
  page_run total n evs ->
  forallb exact_page evs = true ->
  forallb page_received evs = true ->
  n < total ->
  exists (r : response) (evs' : list event),
    evs = (page_request total n, r) :: evs'
    /\ page_run total (n + Z.min batch_size (total - n)) evs'
    /\ forallb exact_page evs' = true
    /\ forallb page_received evs' = true.
Proof.
  intros Hrun Hex Hrec Hlt.
  destruct Hrun as [n Hn | n r Hn Hr | n r items evs Hn Hr Hi Hrun]; [lia | |];
    cbn [forallb] in Hex, Hrec;
    apply andb_true_iff in Hex as [He Hex];
    apply andb_true_iff in Hrec as [Hv Hrec];
    unfold exact_page, page_received, page_request in He, Hv;
    cbn [fst snd] in He, Hv.
  - exfalso. destruct Hr as [Hr | Hr]; rewrite Hr in *; [discriminate Hv |].
    apply Z.eqb_eq in He. unfold batch_size in He. simpl in He. lia.
  - rewrite Hr in He. apply Z.eqb_eq in He. rewrite He in Hrun.
    now exists r, evs.
Qed.

Lemma page_run_full_done (total n : Z) (evs : list event) :
  page_run total n evs -> total <= n -> evs = [].
Proof. intros Hrun Hle. destruct Hrun; [reflexivity | lia | lia]. Qed.

(** C1: with enough fuel the function always returns.  When the count
    probe fails, by an exception of the transport or a status other than
    200, the probe is the only exchange and the result is the empty list.
    When a page request fails in one of these two ways, it is the last
    exchange of the run and the result is exactly the records of the pages
    received before it, in order: a partial result and not an error, 120
    records when 120 had been accumulated. *)
Theorem fetch_failures
        (World : Type) (post : World -> request -> World * response)
        (w : World) (max_issues : option Z) :
  (exists (fuel : nat) (evs : list event) (out : result (list value)),
      forall fuel' : nat,
        (fuel <= fuel')%nat ->
        fetch_jira_issues World post fuel' w max_issues = Some (evs, out))
  /\ (failed (snd (post w CountProbe)) = true ->
      forall fuel : nat,
        fetch_jira_issues World post fuel w max_issues
        = Some ([(CountProbe, snd (post w CountProbe))], Ok []))
  /\ (forall (fuel : nat) (evs : list event) (out : result (list value)),
        fetch_jira_issues World post fuel w max_issues = Some (evs, out) ->
        forall (probe ev : event) (pages rest : list event),
          evs = (probe :: pages ++ ev :: rest)%list ->
          failed (snd ev) = true ->
          rest = []
          /\ out = Ok (records pages)
          /\ (List.length (records pages) = 120%nat ->
              exists l : list value, out = Ok l /\ List.length l = 120%nat)).
Proof.
  split; [apply fetch_jira_issues_terminates |].
  split.
  - intros Hf fuel. unfold fetch_jira_issues.
    destruct (post w CountProbe) as [w' r]. cbn [snd] in *.
    assert (E : count_target max_issues r = Ok None).
    { destruct r as [| status_code body]; [reflexivity |].
      simpl in Hf. simpl. now rewrite Hf. }
    now rewrite E.
  - intros fuel evs out Hrun probe ev pages rest E Hf.
    destruct (fetch_jira_issues_run World post fuel w max_issues evs out Hrun)
      as (pages' & E' & Hc).
    rewrite E in E'. injection E' as _ <-.
    assert (Hi := failed_no_items _ Hf).
    destruct (count_target max_issues (snd (post w CountProbe)))
      as [[total |] | e].
    + destruct Hc as [Hp ->].
      assert (rest = [])
        by (apply (page_run_stops _ _ _ Hp pages rest ev eq_refl); now left).
      subst rest. destruct ev as [req r]. cbn [snd] in Hi.
      rewrite (records_last _ _ _ Hi).
      split; [reflexivity |]. split; [reflexivity |].
      intros Hl. now exists (records pages).
    + destruct Hc as [Hp _]. now destruct pages.
    + destruct Hc as [Hp _]. now destruct pages.
Qed.

Lemma fetch_failures_witness :
  Ok (repeat (VDict []) 120) = Ok (records faulty_pages)
  /\ List.length (records faulty_pages) = 120%nat.
Proof.
  split; [| reflexivity].
  assert (E : fetch_jira_issues (list response) scripted 250 faulty_script None
              = Some ((CountProbe, count_reply 250)
                        :: faulty_pages ++ [(Page 120 100, Reply 500 None)],
                      Ok (repeat (VDict []) 120))%list)
    by (vm_compute; reflexivity).
  exact (proj1 (proj2
           (proj2 (proj2 (fetch_failures (list response) scripted faulty_script None))
                  250%nat _ _ E
                  (CountProbe, count_reply 250) (Page 120 100, Reply 500 None)
                  faulty_pages [] eq_refl eq_refl))).
Defined.

(** C2: the target is the smaller of the maximum and the reported total
    when a maximum is given, and the reported total otherwise.  In a run in
    which every page that came back held as many records as were asked
    for, the k-th page request (from 0) starts at 100 k and asks for the
    smaller of 100 and what is missing from the target, which is between 1
    and 100 and does not take the count over the target; the records
    returned are never more than the target, and they are exactly the
    target when every page came back.  With a total of 250 and no maximum
    the page requests are exactly three, at 0, 100 and 200, asking for 100,
    100 and 50.  In every run a page with no records is the last
    exchange. *)
Theorem pagination_requests
        (World : Type) (post : World -> request -> World * response)
        (w : World) (max_issues : option Z)
        (fuel : nat) (evs : list event) (out : result (list value))
        (Hrun : fetch_jira_issues World post fuel w max_issues = Some (evs, out)) :
  (forall (t : Z) (d : list (string * value)),
      lookup "total" d = Some (VInt t) ->
      count_target None (Reply 200 (Some (VDict d))) = Ok (Some t)
      /\ forall m : Z,
           count_target (Some m) (Reply 200 (Some (VDict d)))
           = Ok (Some (Z.min m t)))
  /\ (forall total : Z,
        count_target max_issues (snd (post w CountProbe)) = Ok (Some total) ->
        forallb exact_page evs = true ->
        (forall (k : nat) (req : request) (r : response),
            nth_error (tl evs) k = Some (req, r) ->
            exists max_results : Z,
              req = Page (100 * Z.of_nat k) max_results
              /\ max_results = Z.min 100 (total - 100 * Z.of_nat k)
              /\ 1 <= max_results <= 100
              /\ 100 * Z.of_nat k + max_results <= total)
        /\ (exists l : list value,
               out = Ok l
               /\ l = records (tl evs)
               /\ Z.of_nat (List.length l) <= Z.max 0 total
               /\ (forallb page_received (tl evs) = true ->
                   0 <= total ->
                   Z.of_nat (List.length l) = total))
        /\ (total = 250 ->
            forallb page_received (tl evs) = true ->
            map fst (tl evs) = [Page 0 100; Page 100 100; Page 200 50]))
  /\ (forall (pre rest : list event) (ev : event),
        evs = (pre ++ ev :: rest)%list ->
        pre <> [] ->
        page_items (snd ev) = Some [] ->
        rest = []).
Proof.
  destruct (fetch_jira_issues_run World post fuel w max_issues evs out Hrun)
    as (pages & E & Hc).
  split.
  { intros t d Hl. split; [| intros m]; simpl; now rewrite Hl. }
  split.
  - intros total Ht Hex. rewrite Ht in Hc. destruct Hc as [Hp ->].
    subst evs. cbn [tl]. cbn [forallb] in Hex.
    apply andb_true_iff in Hex as [_ Hex].
    split; [| split].
    + intros k req r Hk.
      destruct (page_run_exact _ _ _ Hp Hex k req r Hk) as [E1 E2].
      unfold batch_size, page_request in *. rewrite Z.add_0_l in *.
      exists (Z.min 100 (total - 100 * Z.of_nat k)).
      repeat split; [exact E1 | lia | lia | lia].
    + exists (records pages). split; [reflexivity |]. split; [reflexivity |].
      split.
      * pose proof (page_run_exact_length _ _ _ Hp Hex). lia.
      * intros Hrec Hpos.
        pose proof (page_run_complete _ _ _ Hp Hex Hrec Hpos). lia.
    + intros -> Hrec.
      destruct (page_run_full_step _ _ _ Hp Hex Hrec ltac:(lia))
        as (r1 & evs1 & -> & Hp1 & Hex1 & Hrec1).
      destruct (page_run_full_step _ _ _ Hp1 Hex1 Hrec1 ltac:(unfold batch_size; lia))
        as (r2 & evs2 & -> & Hp2 & Hex2 & Hrec2).
      destruct (page_run_full_step _ _ _ Hp2 Hex2 Hrec2 ltac:(unfold batch_size; lia))
        as (r3 & evs3 & -> & Hp3 & _ & _).
      rewrite (page_run_full_done _ _ _ Hp3 ltac:(unfold batch_size; lia)).
      reflexivity.
  - intros pre rest ev Eev Hpre Hev.
    destruct pre as [| p pre]; [now contradiction Hpre |].
    rewrite E in Eev. injection Eev as _ Eev.
    destruct (count_target max_issues (snd (post w CountProbe)))
      as [[total |] | e].
    + destruct Hc as [Hp _].
      apply (page_run_stops _ _ _ Hp pre rest ev Eev). now right.
    + destruct Hc as [-> _]. now destruct pre.
    + destruct Hc as [-> _]. now destruct pre.
Qed.

Lemma pagination_requests_witness :
  map fst (tl faithful_events) = [Page 0 100; Page 100 100; Page 200 50].
Proof.
  assert (E : fetch_jira_issues unit (faithful 250) 250 tt None
              = Some (faithful_events, Ok (repeat (VDict []) 250)))
    by (vm_compute; reflexivity).
  exact (proj2 (proj2
           (proj1 (proj2 (pagination_requests unit (faithful 250) tt None
                            250%nat faithful_events _ E))
                  250 eq_refl eq_refl))
           eq_refl eq_refl).
Defined.

(** * Further properties of the pagination client *)

Lemma page_run_offsets (total n : Z) (evs : list event) :
  page_run total n evs ->
  forall (pre rest : list event) (req : request) (r : response),
    evs = (pre ++ (req, r) :: rest)%list ->
    req = page_request total (n + Z.of_nat (List.length (records pre)))
    /\ n + Z.of_nat (List.length (records pre)) < total.
Proof.
  induction 1 as [n Hn | n r0 Hn Hr | n r0 items evs Hn Hr Hi Hrun IH];
    intros pre rest req r E.
  - now destruct pre.
  - destruct pre as [| p pre]; [| injection E as _ E; now destruct pre].
    injection E as <- <- _. simpl. rewrite Z.add_0_r. now split.
  - destruct pre as [| p pre].
    + injection E as <- <- _. simpl. rewrite Z.add_0_r. now split.
    + injection E as <- E.
      destruct (IH pre rest req r E) as [E1 E2].
      change (records ((page_request total n, r0) :: pre))
        with ((match page_items r0 with Some i => i | None => [] end)
                ++ records pre)%list.
      rewrite Hr, length_app, Nat2Z.inj_add, Z.add_assoc. now split.
Qed.

(** X1: in every run the function returns the records of the pages it
    received, in the order received, none dropped and none cut; every page
    request starts at the number of records received before it and asks
    for the smaller of 100 and what is missing from the target, which is
    at least 1 and at most 100. *)
Theorem fetch_offsets_follow_records
        (World : Type) (post : World -> request -> World * response)
        (w : World) (max_issues : option Z)
        (fuel : nat) (evs : list event) (out : result (list value)) (total : Z)
        (Hrun : fetch_jira_issues World post fuel w max_issues = Some (evs, out))
        (Htotal : count_target max_issues (snd (post w CountProbe)) = Ok (Some total)) :
  out = Ok (records (tl evs))
  /\ forall (pre rest : list event) (req : request) (r : response),
       tl evs = (pre ++ (req, r) :: rest)%list ->
       let n := Z.of_nat (List.length (records pre)) in
       req = Page n (Z.min 100 (total - n))
       /\ 1 <= Z.min 100 (total - n) <= 100
       /\ n < total.
Proof.
  destruct (fetch_jira_issues_run World post fuel w max_issues evs out Hrun)
    as (pages & E & Hc).
  rewrite Htotal in Hc. destruct Hc as [Hp ->]. subst evs. cbn [tl].
  split; [reflexivity |].
  intros pre rest req r E.
  destruct (page_run_offsets _ _ _ Hp pre rest req r E) as [E1 E2].
  rewrite Z.add_0_l in E1, E2.
  unfold page_request, batch_size in E1.
  repeat split; [exact E1 | lia | lia | exact E2].
Qed.

Lemma fetch_offsets_follow_records_witness :
  (Page 37 100 = Page 37 (Z.min 100 (250 - 37))
   /\ 1 <= Z.min 100 (250 - 37) <= 100
   /\ 37 < 250).
Proof.
  assert (E : fetch_jira_issues (list response) scripted 250 short_pages_script None
              = Some (short_pages_events, Ok (repeat (VDict []) 37)))
    by (vm_compute; reflexivity).
  exact (proj2 (fetch_offsets_follow_records
                  (list response) scripted short_pages_script None
                  250%nat short_pages_events _ 250 E eq_refl)
               [(Page 0 100, page_reply 30); (Page 30 100, page_reply 7)] []
               (Page 37 100) (page_reply 0) eq_refl).
Defined.

Lemma page_run_starts (total n : Z) (evs : list event) :
  page_run total n evs -> Forall (fun ev => n <= start_of ev) evs.
Proof.
  induction 1 as [n Hn | n r0 Hn Hr | n r0 items evs Hn Hr Hi Hrun IH].
  - constructor.
  - constructor; [unfold start_of; simpl; lia | constructor].
  - constructor; [unfold start_of; simpl; lia |].
    apply (Forall_impl _ (P := fun ev => n + Z.of_nat (List.length items) <= start_of ev));
      [intros ev; lia | exact IH].
Qed.

Lemma page_run_increasing (total n : Z) (evs : list event) :
  page_run total n evs -> StronglySorted Z.lt (map start_of evs).
Proof.
  induction 1 as [n Hn | n r0 Hn Hr | n r0 items evs Hn Hr Hi Hrun IH].
  - constructor.
  - repeat constructor.
  - cbn [map]. constructor; [exact IH |].
    apply Forall_map.
    apply (Forall_impl _ (P := fun ev => n + Z.of_nat (List.length items) <= start_of ev)).
    + intros ev Hev. unfold start_of at 1. cbn [fst page_request].
      destruct items as [| i items]; [now contradiction Hi |].
      cbn [List.length] in Hev. lia.
    + now apply page_run_starts with (total := total).
Qed.

Lemma page_run_count (total n : Z) (evs : list event) :
  page_run total n evs -> (List.length evs <= Z.to_nat (total - n))%nat.
Proof.
  induction 1 as [n Hn | n r0 Hn Hr | n r0 items evs Hn Hr Hi Hrun IH].
  - simpl. lia.
  - simpl. lia.
  - cbn [List.length].
    destruct items as [| i items]; [now contradiction Hi |].
    cbn [List.length] in IH. lia.
Qed.

(** X2: the page requests of a run are at strictly increasing offsets, and
    there are at most as many of them as the target counts records, so
    none at all when the target is 0 or less: the function then returns
    the empty list after the probe alone. *)
Theorem fetch_requests_increase_and_are_bounded
        (World : Type) (post : World -> request -> World * response)
        (w : World) (max_issues : option Z)
        (fuel : nat) (evs : list event) (out : result (list value)) (total : Z)
        (Hrun : fetch_jira_issues World post fuel w max_issues = Some (evs, out))
        (Htotal : count_target max_issues (snd (post w CountProbe)) = Ok (Some total)) :
  StronglySorted Z.lt (map start_of (tl evs))
  /\ (List.length (tl evs) <= Z.to_nat total)%nat
  /\ (total <= 0 -> tl evs = [] /\ out = Ok []).
Proof.
  destruct (fetch_jira_issues_run World post fuel w max_issues evs out Hrun)
    as (pages & E & Hc).
  rewrite Htotal in Hc. destruct Hc as [Hp ->]. subst evs. cbn [tl].
  split; [now apply page_run_increasing with (total := total) (n := 0) |].
  pose proof (page_run_count _ _ _ Hp) as Hc. rewrite Z.sub_0_r in Hc.
  split; [exact Hc |].
  intros Hle. assert (pages = []) by (destruct pages; [reflexivity | simpl in Hc; lia]).
  now subst pages.
Qed.

Lemma fetch_requests_increase_and_are_bounded_witness :
  StronglySorted Z.lt [0; 30; 37] /\ (3 <= Z.to_nat 250)%nat.
Proof.
  assert (E : fetch_jira_issues (list response) scripted 250 short_pages_script None
              = Some (short_pages_events, Ok (repeat (VDict []) 37)))
    by (vm_compute; reflexivity).
  pose proof (fetch_requests_increase_and_are_bounded
                (list response) scripted short_pages_script None
                250%nat short_pages_events _ 250 E eq_refl) as H.
  exact (conj (proj1 H) (proj1 (proj2 H))).
Defined.

Lemma page_run_bounded_length (total n : Z) (evs : list event) :
  page_run total n evs ->
  forallb bounded_page evs = true ->
  n + Z.of_nat (List.length (records evs)) <= Z.max n total.
Proof.
  induction 1 as [n Hn | n r Hn Hr | n r items evs Hn Hr Hi Hrun IH]; intros Hb.
  - simpl. lia.
  - unfold records. simpl.
    destruct Hr as [Hr | Hr]; rewrite Hr; simpl; lia.
  - cbn [forallb] in Hb. apply andb_true_iff in Hb as [He Hb].
    unfold bounded_page, page_request in He. cbn [fst snd] in He.
    rewrite Hr in He. apply Z.leb_le in He.
    specialize (IH Hb).
    change (records ((page_request total n, r) :: evs))
      with ((match page_items r with Some i => i | None => [] end)
              ++ records evs)%list.
    rewrite Hr, length_app, Nat2Z.inj_add.
    unfold batch_size in He. lia.
Qed.

Lemma count_target_max (m : Z) (r : response) :
  (forall e, count_target (Some m) r <> Raise e)
  /\ (forall total, count_target (Some m) r = Ok (Some total) -> total <= m).
Proof.
  unfold count_target.
  destruct r as [| status_code body]; [split; [discriminate | discriminate] |].
  destruct (negb (status_code =? 200)); [split; discriminate |].
  destruct body as [data |]; [| split; discriminate].
  destruct (subscript data "total") as [v | e]; [| split; discriminate].
  destruct (as_int v) as [t |]; [| split; discriminate].
  split; [discriminate |]. intros total [= <-]. lia.
Qed.

(** X3: when a maximum is given and no page holds more records than were
    asked for, the function returns a list, never raises, and the list has
    at most that maximum of records (none for a maximum of 0 or less),
    whatever the service reports as its total and however short its pages
    are. *)
Theorem fetch_respects_maximum
        (World : Type) (post : World -> request -> World * response)
        (w : World) (m : Z)
        (fuel : nat) (evs : list event) (out : result (list value))
        (Hrun : fetch_jira_issues World post fuel w (Some m) = Some (evs, out))
        (Hbounded : forallb bounded_page evs = true) :
  exists l : list value,
    out = Ok l /\ Z.of_nat (List.length l) <= Z.max 0 m.
Proof.
  destruct (fetch_jira_issues_run World post fuel w (Some m) evs out Hrun)
    as (pages & E & Hc).
  destruct (count_target_max m (snd (post w CountProbe))) as [Hne Hle].
  destruct (count_target (Some m) (snd (post w CountProbe))) as [[total |] | e].
  - destruct Hc as [Hp ->]. exists (records pages). split; [reflexivity |].
    subst evs. cbn [forallb] in Hbounded.
    apply andb_true_iff in Hbounded as [_ Hb].
    pose proof (page_run_bounded_length _ _ _ Hp Hb).
    specialize (Hle total eq_refl). lia.
  - destruct Hc as [_ ->]. exists []. split; [reflexivity | simpl; lia].
  - now contradiction (Hne e).
Qed.

Lemma fetch_respects_maximum_witness :
  exists l : list value,
    Ok (repeat (VDict []) 37) = Ok l /\ Z.of_nat (List.length l) <= Z.max 0 50.
Proof.
  assert (E : fetch_jira_issues (list response) scripted 50 short_pages_script (Some 50)
              = Some (capped_events, Ok (repeat (VDict []) 37)))
    by (vm_compute; reflexivity).
  exact (fetch_respects_maximum (list response) scripted short_pages_script 50
           50%nat capped_events _ E eq_refl).
Defined.

(** X4: a probe that is answered with status 200 but gives no count.
    When the body does not decode or has no [total], the function returns
    the empty list after the probe alone, with or without a maximum.  When
    the [total] is there but is not a number, the function returns the
    empty list if a maximum was given and raises TypeError if none was. *)
Theorem fetch_probe_without_count
        (World : Type) (post : World -> request -> World * response)
        (w : World) (body : option value)
        (Hprobe : snd (post w CountProbe) = Reply 200 body) :
  (no_total body = true ->
   forall (max_issues : option Z) (fuel : nat),
     fetch_jira_issues World post fuel w max_issues
     = Some ([(CountProbe, Reply 200 body)], Ok []))
  /\ (forall (data v : value),
        body = Some data ->
        subscript data "total" = Ok v ->
        as_int v = None ->
        forall fuel : nat,
          (forall m : Z,
              fetch_jira_issues World post fuel w (Some m)
              = Some ([(CountProbe, Reply 200 body)], Ok []))
          /\ fetch_jira_issues World post fuel w None
             = Some ([(CountProbe, Reply 200 body)], Raise TypeError)).
Proof.
  unfold fetch_jira_issues.
  destruct (post w CountProbe) as [w' r]. cbn [snd] in Hprobe. subst r.
  split.
  - intros Hn max_issues fuel. unfold count_target, no_total in *.
    cbn [Z.eqb negb Pos.eqb].
    destruct body as [data |]; [| reflexivity].
    destruct (subscript data "total"); [discriminate Hn | reflexivity].
  - intros data v -> Hv Hi fuel. unfold count_target.
    cbn [Z.eqb negb Pos.eqb]. rewrite Hv, Hi. split; reflexivity.
Qed.

Lemma fetch_probe_without_count_witness :
  fetch_jira_issues (list response) scripted 10
    [Reply 200 (Some (VDict [("total", VStr "250")]))] None
  = Some ([(CountProbe, Reply 200 (Some (VDict [("total", VStr "250")])))],
          Raise TypeError).
Proof.
  exact (proj2 (proj2 (fetch_probe_without_count (list response) scripted
                         [Reply 200 (Some (VDict [("total", VStr "250")]))]
                         (Some (VDict [("total", VStr "250")])) eq_refl)
                      (VDict [("total", VStr "250")]) (VStr "250")
                      eq_refl eq_refl eq_refl 10%nat)).
Defined.

(** * Further properties of the work-time aggregator *)

Lemma dict_find_keys {A : Type} (k : value) (d : dict A) :
  existsb (key_eqb k) (map fst d)
  = match dict_find k d with Some _ => true | None => false end.
Proof.
  induction d as [| [k' x] d IH]; simpl; [reflexivity |].
  destruct (key_eqb k k'); [reflexivity | exact IH].
Qed.

Lemma dict_set_keys {A : Type} (k : value) (x : A) (d : dict A) :
  map fst (dict_set k x d)
  = if existsb (key_eqb k) (map fst d) then map fst d
    else (map fst d ++ [k])%list.
Proof.
  induction d as [| [k' y] d IH]; simpl; [reflexivity |].
  destruct (key_eqb k k'); simpl; [reflexivity |].
  rewrite IH. now destruct (existsb (key_eqb k) (map fst d)).
Qed.

Lemma add_entries_keys (entries : list value) (acc temps : dict Z) :
  forallb entry_ok entries = true ->
  add_entries entries acc = Ok temps ->
  map fst temps
  = (map fst acc
       ++ new_keys (map fst acc) (map (entry_author "Inconnu") entries))%list.
Proof.
  revert acc.
  induction entries as [| e es IH]; intros acc H E.
  - injection E as <-. simpl. now rewrite app_nil_r.
  - simpl in H. apply andb_true_iff in H as [He Hes].
    cbn [add_entries] in E. rewrite (add_entry_ok _ _ He) in E. cbn [bind] in E.
    rewrite (IH _ Hes E), dict_set_keys. cbn [map new_keys].
    destruct (existsb (key_eqb (entry_author "Inconnu" e)) (map fst acc));
      [reflexivity | now rewrite <- app_assoc].
Qed.

Lemma dict_find_none_keys {A : Type} (a : value) (d : dict A) :
  dict_find a d = None ->
  forall k : value, In k (map fst d) -> key_eqb a k = false.
Proof.
  induction d as [| [k' x] d IH]; simpl; intros H k Hk; [contradiction |].
  destruct (key_eqb a k') eqn:E; [discriminate H |].
  destruct Hk as [<- | Hk]; [exact E | now apply IH].
Qed.

Lemma format_totals_keys (temps : dict Z) (out : dict string) :
  distinct_keys temps ->
  (forall k, In k (map fst temps) -> existsb (key_eqb k) (map fst out) = false) ->
  map fst (format_totals temps out) = (map fst out ++ map fst temps)%list.
Proof.
  revert out.
  induction temps as [| [a t] temps IH]; intros out Hd Hout.
  - simpl. now rewrite app_nil_r.
  - destruct Hd as [Ha Hd]. cbn [format_totals].
    assert (Hk : map fst (dict_set a (convert_seconds_to_hm t) out)
                 = (map fst out ++ [a])%list).
    { rewrite dict_set_keys, (Hout a); [reflexivity | now left]. }
    rewrite IH; [| exact Hd |].
    + rewrite Hk, <- app_assoc. reflexivity.
    + intros k Hin. rewrite Hk, existsb_app, (Hout k) by now right.
      cbn [existsb orb]. rewrite orb_false_r, key_eqb_sym.
      exact (dict_find_none_keys a temps Ha k Hin).
Qed.

(** X5: the dict of totals and the dict the function returns list the
    authors in the order in which they first appear in the work log, each
    author once: two keys of the result are never equal. *)
Theorem authors_in_order_of_first_entry (entries : list value)
        (Hok : forallb entry_ok entries = true) :
  exists (temps : dict Z) (formatted : dict string),
    temps_par_collaborateur (VList entries) = Ok temps
    /\ calculer_temps_par_collaborateur (VList entries) = Ok formatted
    /\ map fst temps = first_seen entries
    /\ map fst formatted = first_seen entries
    /\ distinct_keys temps.
Proof.
  destruct (add_entries_ok entries [] Hok I) as (temps & E & Hd & _).
  exists temps, (format_totals temps []).
  assert (E' : temps_par_collaborateur (VList entries) = Ok temps) by exact E.
  assert (K : map fst temps = first_seen entries)
    by exact (add_entries_keys entries [] temps Hok E).
  split; [exact E' |].
  split; [unfold calculer_temps_par_collaborateur; now rewrite E' |].
  split; [exact K |].
  split; [| exact Hd].
  rewrite format_totals_keys; [exact K | exact Hd | reflexivity].
Qed.

Lemma authors_in_order_of_first_entry_witness :
  exists (temps : dict Z) (formatted : dict string),
    temps_par_collaborateur (VList sample_worklog_mixed) = Ok temps
    /\ calculer_temps_par_collaborateur (VList sample_worklog_mixed) = Ok formatted
    /\ map fst temps = [VStr "B"; VStr "Inconnu"; VStr "A"]
    /\ map fst formatted = [VStr "B"; VStr "Inconnu"; VStr "A"]
    /\ distinct_keys temps.
Proof.
  exact (authors_in_order_of_first_entry sample_worklog_mixed eq_refl).
Defined.

Lemma dict_sum_set (k : value) (t : Z) (d : dict Z) :
  dict_sum (dict_set k (match dict_find k d with Some c => c | None => 0 end + t) d)
  = dict_sum d + t.
Proof.
  induction d as [| [k' y] d IH]; [simpl; lia |].
  cbn [dict_set dict_find].
  destruct (key_eqb k k'); unfold dict_sum in *; cbn [fold_right snd]; [lia |].
  rewrite IH. lia.
Qed.

Lemma add_entries_sum (entries : list value) (acc temps : dict Z) :
  forallb entry_ok entries = true ->
  add_entries entries acc = Ok temps ->
  dict_sum temps = dict_sum acc + total_seconds entries.
Proof.
  revert acc.
  induction entries as [| e es IH]; intros acc H E.
  - injection E as <-. simpl. lia.
  - simpl in H. apply andb_true_iff in H as [He Hes].
    cbn [add_entries] in E. rewrite (add_entry_ok _ _ He) in E. cbn [bind] in E.
    rewrite (IH _ Hes E), dict_sum_set. simpl. lia.
Qed.

(** X6: the totals add up to the durations of the work log: no second of
    an entry is lost or counted twice, whoever its author is. *)
Theorem totals_add_up (entries : list value)
        (Hok : forallb entry_ok entries = true) :
  exists temps : dict Z,
    temps_par_collaborateur (VList entries) = Ok temps
    /\ dict_sum temps = total_seconds entries.
Proof.
  destruct (add_entries_ok entries [] Hok I) as (temps & E & _).
  exists temps. split; [exact E |].
  exact (add_entries_sum entries [] temps Hok E).
Qed.

Lemma totals_add_up_witness :
  exists temps : dict Z,
    temps_par_collaborateur (VList sample_worklog_mixed) = Ok temps
    /\ dict_sum temps = 3735.
Proof.
  exact (totals_add_up sample_worklog_mixed eq_refl).
Defined.

Lemma add_entries_app (pre post : list value) (acc : dict Z) :
  add_entries (pre ++ post) acc
  = (temps <- add_entries pre acc ;; add_entries post temps).
Proof.
  revert acc.
  induction pre as [| e pre IH]; intros acc; [reflexivity |].
  cbn [app add_entries].
  destruct (add_entry e acc) as [temps | x]; [apply IH | reflexivity].
Qed.

(** What the loop body does on an entry that is not of the expected
    shape. *)
Lemma add_entry_malformed (entry : value) (temps : dict Z) :
  (is_dict entry = false -> add_entry entry temps = Raise AttributeError)
  /\ (is_dict entry = true ->
      is_dict (attr entry "author" (VDict [])) = false ->
      add_entry entry temps = Raise AttributeError)
  /\ (is_dict entry = true ->
      is_dict (attr entry "author" (VDict [])) = true ->
      hashable (entry_author "Inconnu" entry) = false
      \/ as_int (attr entry "timeSpentSeconds" (VInt 0)) = None ->
      add_entry entry temps = Raise TypeError).
Proof.
  unfold add_entry, entry_author.
  split; [| split].
  - destruct entry; try reflexivity. discriminate.
  - intros Hd Ha. rewrite (get_attr _ _ _ Hd). cbn [bind].
    destruct (attr entry "author" (VDict [])); try reflexivity. discriminate Ha.
  - intros Hd Ha H.
    rewrite (get_attr _ _ _ Hd). cbn [bind].
    rewrite (get_attr _ _ _ Ha). cbn [bind].
    rewrite (get_attr _ _ _ Hd). cbn [bind].
    destruct H as [H | H]; [now rewrite H |].
    rewrite H. now destruct (hashable _).
Qed.

(** X7: one entry that is not of the expected shape makes the whole
    function raise, whatever comes after it, when the entries before it
    are well formed: AttributeError when the entry or its author is not a
    record, TypeError when its display name cannot be a key (a list or a
    record) or its duration is not a number. *)
Theorem malformed_entry_raises (pre post : list value) (entry : value)
        (Hpre : forallb entry_ok pre = true) :
  (is_dict entry = false \/ is_dict (attr entry "author" (VDict [])) = false ->
   calculer_temps_par_collaborateur (VList (pre ++ entry :: post))
   = Raise AttributeError)
  /\ (is_dict entry = true ->
      is_dict (attr entry "author" (VDict [])) = true ->
      hashable (entry_author "Inconnu" entry) = false
      \/ as_int (attr entry "timeSpentSeconds" (VInt 0)) = None ->
      calculer_temps_par_collaborateur (VList (pre ++ entry :: post))
      = Raise TypeError).
Proof.
  destruct (add_entries_ok pre [] Hpre I) as (temps & E & _).
  assert (R : forall e, add_entry entry temps = Raise e ->
                        calculer_temps_par_collaborateur (VList (pre ++ entry :: post))
                        = Raise e).
  { intros e He. unfold calculer_temps_par_collaborateur, temps_par_collaborateur.
    cbn [iter bind]. rewrite add_entries_app, E. cbn [bind add_entries].
    now rewrite He. }
  destruct (add_entry_malformed entry temps) as (H1 & H2 & H3).
  split.
  - intros [H | H]; apply R.
    + now apply H1.
    + destruct (is_dict entry) eqn:Hd; [now apply H2 | now apply H1].
  - intros Hd Ha H. apply R. now apply H3.
Qed.

Lemma malformed_entry_raises_witness :
  calculer_temps_par_collaborateur
    (VList (sample_worklog
              ++ VDict [("author", VDict [("displayName", VStr "C")]);
                        ("timeSpentSeconds", VStr "1h")] :: sample_worklog))
  = Raise TypeError.
Proof.
  exact (proj2 (malformed_entry_raises sample_worklog sample_worklog
                  (VDict [("author", VDict [("displayName", VStr "C")]);
                          ("timeSpentSeconds", VStr "1h")]) eq_refl)
               eq_refl eq_refl (or_intror eq_refl)).
Defined.

(** * Further properties of the duration format *)

Lemma minutes_of_seconds (s : Z) :
  s / 60 = 60 * (s / 3600) + (s mod 3600) / 60.
Proof.
  rewrite Z.mod_eq by lia.
  replace (s - 3600 * (s / 3600)) with (s + (- (60 * (s / 3600))) * 60) by lia.
  rewrite Z.div_add by lia. lia.
Qed.

(** X8: for every integer, negative ones too, the minutes of the text are
    between 0 and 59 and the hours and minutes are those of the whole
    minute at or below the number of seconds.  For a negative number the
    hours are negative and the text starts with a minus sign, so one second
    less than nothing is [-1h 59m]. *)
Theorem convert_seconds_to_hm_floor (s : Z) :
  let H := s / 3600 in
  let M := (s mod 3600) / 60 in
  convert_seconds_to_hm s = dec H ++ "h " ++ dec M ++ "m"
  /\ 0 <= M < 60
  /\ 3600 * H + 60 * M <= s < 3600 * H + 60 * M + 60
  /\ (s < 0 ->
      H < 0 /\ exists rest : string, convert_seconds_to_hm s = String "-" rest)
  /\ convert_seconds_to_hm (-1) = "-1h 59m".
Proof.
  intros H M. subst H M.
  pose proof (Z.div_mod s 3600 ltac:(lia)) as E1.
  pose proof (Z.mod_pos_bound s 3600 ltac:(lia)) as B1.
  pose proof (Z.div_mod (s mod 3600) 60 ltac:(lia)) as E2.
  pose proof (Z.mod_pos_bound (s mod 3600) 60 ltac:(lia)) as B2.
  assert (0 <= (s mod 3600) / 60) by (apply Z.div_pos; lia).
  assert ((s mod 3600) / 60 < 60) by (apply Z.div_lt_upper_bound; lia).
  split; [reflexivity |].
  split; [lia |].
  split; [lia |].
  split; [| reflexivity].
  intros Hs. assert (Hn : s / 3600 < 0) by (apply Z.div_lt_upper_bound; lia).
  split; [exact Hn |].
  unfold convert_seconds_to_hm.
  destruct (s / 3600) as [| p | p]; try lia.
  eexists. reflexivity.
Qed.

Lemma convert_seconds_to_hm_floor_witness :
  -3700 < 0
  /\ (-3700 / 3600 < 0
      /\ exists rest : string, convert_seconds_to_hm (-3700) = String "-" rest).
Proof.
  split; [lia |].
  exact (proj1 (proj2 (proj2 (proj2 (convert_seconds_to_hm_floor (-3700)))))
               ltac:(lia)).
Defined.

(** The decimal of a number has no letter. *)
Lemma uint_has_no_letter (c : ascii) (d : Decimal.uint) :
  (N_of_ascii c <? 48)%N || (57 <? N_of_ascii c)%N = true ->
  has_char c (NilEmpty.string_of_uint d) = false.
Proof.
  intros Hc.
  assert (D : forall a : ascii,
             (48 <=? N_of_ascii a)%N && (N_of_ascii a <=? 57)%N = true ->
             Ascii.eqb a c = false).
  { intros a Ha. apply Ascii.eqb_neq. intros ->. 
    apply andb_true_iff in Ha as [H1 H2].
    apply N.leb_le in H1, H2.
    apply orb_true_iff in Hc as [H | H]; apply N.ltb_lt in H; lia. }
  induction d; cbn [NilEmpty.string_of_uint has_char];
    [reflexivity | rewrite IHd, D by reflexivity; reflexivity ..].
Qed.

Lemma dec_has_no_letter (c : ascii) (z : Z) :
  (57 <? N_of_ascii c)%N = true -> has_char c (dec z) = false.
Proof.
  intros Hc.
  assert (Hc' : (N_of_ascii c <? 48)%N || (57 <? N_of_ascii c)%N = true)
    by (now rewrite Hc, orb_true_r).
  assert (U : forall d, has_char c (NilZero.string_of_uint d) = false).
  { intros d. destruct d; try exact (uint_has_no_letter c _ Hc').
    cbn [NilZero.string_of_uint has_char].
    assert (E : Ascii.eqb "0" c = false).
    { apply Ascii.eqb_neq. intros <-. discriminate Hc. }
    now rewrite E. }
  unfold dec. destruct (Z.to_int z) as [d | d]; cbn [NilZero.string_of_int].
  - apply U.
  - cbn [has_char]. rewrite U.
    assert (E : Ascii.eqb "-" c = false).
    { apply Ascii.eqb_neq. intros <-. discriminate Hc. }
    now rewrite E.
Qed.

(** Two texts that agree after a first [c] agree before and after it. *)
Lemma append_at_first (c : ascii) (a b x y : string) :
  has_char c a = false ->
  has_char c b = false ->
  a ++ String c x = b ++ String c y ->
  a = b /\ x = y.
Proof.
  revert b.
  induction a as [| a0 a IH]; intros [| b0 b] Ha Hb E; cbn [append] in E.
  - now injection E as <-.
  - injection E as -> _. cbn [has_char] in Hb.
    now rewrite Ascii.eqb_refl in Hb.
  - injection E as -> _. cbn [has_char] in Ha.
    now rewrite Ascii.eqb_refl in Ha.
  - injection E as -> E. cbn [has_char] in Ha, Hb.
    apply orb_false_iff in Ha as [_ Ha]. apply orb_false_iff in Hb as [_ Hb].
    destruct (IH b Ha Hb E) as [-> ->]. now split.
Qed.

Lemma dec_injective (x y : Z) : dec x = dec y -> x = y.
Proof.
  intros E. apply (f_equal undec) in E. rewrite !undec_dec in E.
  now injection E.
Qed.

(** X9: two numbers of seconds have the same text exactly when they lie
    in the same whole minute: the text loses the seconds and nothing
    else. *)
Theorem convert_seconds_to_hm_same_minute (s1 s2 : Z) :
  convert_seconds_to_hm s1 = convert_seconds_to_hm s2 <-> s1 / 60 = s2 / 60.
Proof.
  split.
  - unfold convert_seconds_to_hm. intros E.
    change ("h " ++ ?x) with (String "h" (String " " x)) in E.
    cbn [append] in E.
    apply append_at_first in E; try (apply dec_has_no_letter; reflexivity).
    destruct E as [EH E]. injection E as E.
    change "m" with (String "m" EmptyString) in E.
    apply append_at_first in E; try (apply dec_has_no_letter; reflexivity).
    destruct E as [EM _].
    apply dec_injective in EH, EM.
    rewrite (minutes_of_seconds s1), (minutes_of_seconds s2). lia.
  - intros E. unfold convert_seconds_to_hm.
    assert (EH : s1 / 3600 = s2 / 3600).
    { replace 3600 with (60 * 60) by reflexivity.
      rewrite <- !Z.div_div by lia. now rewrite E. }
    pose proof (minutes_of_seconds s1). pose proof (minutes_of_seconds s2).
    assert (EM : (s1 mod 3600) / 60 = (s2 mod 3600) / 60) by lia.
    now rewrite EH, EM.
Qed.

(** * Further properties of the field normalizers *)

(** X10: [process_subtasks] gives the empty text for an absent or empty
    list and, for a list of subtask records, one text
    [<key> [<status>] - <summary>] for each subtask, in order, joined by
    newlines; a missing key is [Unknown], a subtask without fields or
    without a status in them has [Unknown status], and one without a
    summary has [No summary]. *)
Theorem process_subtasks_spec :
  process_subtasks VNone = Ok EmptyString
  /\ process_subtasks (VList []) = Ok EmptyString
  /\ (forall subtasks : list value,
        forallb issue_ref_ok subtasks = true ->
        process_subtasks (VList subtasks)
        = Ok (concat nl (map subtask_text subtasks)))
  /\ (forall subtask : value,
        has_key "fields" subtask = false ->
        subtask_text subtask
        = py_str (attr subtask "key" (VStr "Unknown"))
                 ++ " [Unknown status] - No summary")
  /\ (forall (key : value) (f : list (string * value)),
        lookup "status" f = None ->
        lookup "summary" f = None ->
        subtask_text (VDict [("key", key); ("fields", VDict f)])
        = py_str key ++ " [Unknown status] - No summary").
Proof.
  split; [reflexivity |].
  split; [reflexivity |].
  split; [exact process_subtasks_ok |].
  split.
  - intros subtask H. unfold subtask_text, issue_status, issue_summary.
    now rewrite H.
  - intros key f Hs Hm.
    unfold subtask_text, issue_status, issue_summary, has_key, attr.
    cbn [lookup String.eqb Ascii.eqb Bool.eqb]. now rewrite Hs, Hm.
Qed.

Lemma process_subtasks_spec_witness :
  process_subtasks (VList sample_subtasks)
  = Ok ("DHRD-11 [Done] - Write tests" ++ nl
        ++ "DHRD-12 [Unknown status] - No summary" ++ nl
        ++ "Unknown [Unknown status] - No summary").
Proof.
  exact (proj1 (proj2 (proj2 process_subtasks_spec)) sample_subtasks eq_refl).
Defined.

Lemma single_char_has_no_end (c : ascii) :
  is_substring "outwardIssue" (String c EmptyString) = false
  /\ is_substring "inwardIssue" (String c EmptyString) = false.
Proof.
  destruct c as [[] [] [] [] [] [] [] []]; split; reflexivity.
Qed.

Lemma links_loop_chars (s : string) (acc : list string) :
  links_loop (chars s) acc = Ok acc.
Proof.
  induction s as [| c s IH]; [reflexivity |].
  cbn [chars links_loop contains bind].
  destruct (single_char_has_no_end c) as [-> ->]. exact IH.
Qed.

(** X11: what the normalizers do with a str in place of a list.
    [process_issue_links] goes through its characters, finds no link in
    any of them and returns the empty text, for every str; the other
    normalizers return the empty text for the empty str only and raise
    AttributeError for every other one, since a str has no [get]. *)
Theorem normalizers_on_a_str (s : string) :
  process_issue_links (VStr s) = Ok EmptyString
  /\ (s <> EmptyString ->
      process_comments (VStr s) = Raise AttributeError
      /\ process_subtasks (VStr s) = Raise AttributeError
      /\ process_fix_versions (VStr s) = Raise AttributeError
      /\ process__versions (VStr s) = Raise AttributeError).
Proof.
  split.
  - unfold process_issue_links.
    destruct (negb (truthy (VStr s))); [reflexivity |].
    cbn [iter bind]. now rewrite links_loop_chars.
  - intros Hs. destruct s as [| c s]; [now contradiction Hs |].
    repeat split; reflexivity.
Qed.

Lemma normalizers_on_a_str_witness :
  "DHRD-7" <> EmptyString
  /\ process_subtasks (VStr "DHRD-7") = Raise AttributeError.
Proof.
  split; [discriminate |].
  exact (proj1 (proj2 (proj2 (normalizers_on_a_str "DHRD-7") ltac:(discriminate)))).
Defined.

(** * Further properties of the record flattener *)

Lemma process_issues_acc (issues : list value) (acc : list row) :
  process_issues issues acc
  = (rows <- process_issues issues [] ;; Ok (acc ++ rows)%list).
Proof.
  revert acc.
  induction issues as [| issue issues IH]; intros acc.
  - simpl. now rewrite app_nil_r.
  - cbn [process_issues].
    destruct (process_issue issue) as [r | e]; [| reflexivity].
    cbn [bind]. rewrite (IH (acc ++ [r])%list), (IH ([] ++ [r])%list).
    destruct (process_issues issues []) as [rows | e]; [| reflexivity].
    cbn [bind]. now rewrite <- app_assoc.
Qed.

Lemma process_issues_cons (issue : value) (issues : list value) :
  process_issues (issue :: issues) []
  = (r <- process_issue issue ;;
     rows <- process_issues issues [] ;;
     Ok (r :: rows)).
Proof.
  cbn [process_issues].
  destruct (process_issue issue) as [r | e]; [| reflexivity].
  cbn [bind]. now rewrite process_issues_acc.
Qed.

Lemma process_issues_forall2 (issues : list value) :
  forall rows : list row,
    process_issues issues [] = Ok rows
    <-> Forall2 (fun issue r => process_issue issue = Ok r) issues rows.
Proof.
  induction issues as [| issue issues IH]; intros rows.
  - split.
    + intros [= <-]. constructor.
    + intros H. inversion H. reflexivity.
  - rewrite process_issues_cons. split.
    + intros H.
      destruct (process_issue issue) as [r | e] eqn:E; [| discriminate H].
      cbn [bind] in H.
      destruct (process_issues issues []) as [rows' | e] eqn:E';
        [| discriminate H].
      injection H as <-. constructor; [exact E | now apply IH].
    + intros H. inversion H as [| i r tl_i tl_r Hr Hrs]; subst.
      rewrite Hr. cbn [bind]. apply IH in Hrs. now rewrite Hrs.
Qed.

(** X12: the loop of [save_to_csv] gives one row for each issue, in the
    order of the issues, each the row of its issue; and it gives no rows
    at all when one issue cannot be flattened: the exception of the first
    such issue leaves the function, whatever the issues after it are. *)
Theorem process_issues_rows_follow_issues :
  (forall (issues : list value) (rows : list row),
      process_issues issues [] = Ok rows
      <-> Forall2 (fun issue r => process_issue issue = Ok r) issues rows)
  /\ (forall (pre post : list value) (issue : value) (e : exn),
        Forall (fun i => exists r, process_issue i = Ok r) pre ->
        process_issue issue = Raise e ->
        process_issues (pre ++ issue :: post) [] = Raise e).
Proof.
  split; [exact process_issues_forall2 |].
  intros pre post issue e Hpre He.
  induction Hpre as [| i pre [r Hr] _ IH].
  - cbn [app]. rewrite process_issues_cons, He. reflexivity.
  - cbn [app]. rewrite process_issues_cons, Hr. cbn [bind]. now rewrite IH.
Qed.

Lemma process_issues_rows_follow_issues_witness :
  process_issues ([sample_issue; VDict []] ++ issue_with_null_labels :: [sample_issue]) []
  = Raise TypeError.
Proof.
  refine (proj2 process_issues_rows_follow_issues
            [sample_issue; VDict []] [sample_issue] issue_with_null_labels TypeError
            _ eq_refl).
  repeat constructor; eexists; reflexivity.
Defined.

(** The steps of the loop body that succeeded when a row was produced. *)
Ltac invert_process_issue H :=
  unfold process_issue in H;
  repeat match goal with
         | H : bind ?c _ = Ok _ |- _ =>
             destruct c eqn:?; cbn [bind] in H; [| discriminate H]
         end;
  injection H as <-;
  repeat match goal with
         | E : get _ _ _ = Ok _ |- _ => apply get_inv in E as [? ->]
         end.

(** X13: in a row the cells of the list-valued fields are what the
    normalizers return on these fields: the labels joined by a comma and a
    space, the names of the components joined the same way, the texts of
    [process__versions], [process_fix_versions], [process_issue_links],
    [process_subtasks] and [process_comments], and, under Worklog, the
    dict of [calculer_temps_par_collaborateur] on the [worklogs] of the
    [worklog] field. *)
Theorem row_cells_of_lists (issue : value) (r : row)
        (Hrow : process_issue issue = Ok r) :
  let fields := attr issue "fields" (VDict []) in
  (exists s, join ", " (attr fields "labels" (VList [])) = Ok s
             /\ cell_of "Labels" r = Some (CVal (VStr s)))
  /\ (exists items names s,
         iter (attr fields "components" (VList [])) = Ok items
         /\ get_each "name" (VStr EmptyString) items = Ok names
         /\ join ", " (VList names) = Ok s
         /\ cell_of "Components" r = Some (CVal (VStr s)))
  /\ (exists s, process__versions (attr fields "versions" (VList [])) = Ok s
                /\ cell_of "Versions" r = Some (CVal (VStr s)))
  /\ (exists s, process_fix_versions (attr fields "fixVersions" (VList [])) = Ok s
                /\ cell_of "Fix Versions" r = Some (CVal (VStr s)))
  /\ (exists s, process_issue_links (attr fields "issuelinks" (VList [])) = Ok s
                /\ cell_of "Issue Links" r = Some (CVal (VStr s)))
  /\ (exists s, process_subtasks (attr fields "subtasks" (VList [])) = Ok s
                /\ cell_of "Subtasks" r = Some (CVal (VStr s)))
  /\ (exists s, process_comments (attr fields "comment" VNone) = Ok s
                /\ cell_of "Comments" r = Some (CVal (VStr s)))
  /\ (exists d,
         calculer_temps_par_collaborateur
           (attr (attr fields "worklog" (VDict [])) "worklogs" (VList [])) = Ok d
         /\ cell_of "Worklog" r = Some (CDict d)).
Proof.
  invert_process_issue Hrow. cbv zeta.
  repeat split; repeat eexists; try eassumption; reflexivity.
Qed.

Lemma row_cells_of_lists_witness :
  exists s, join ", " (attr (attr sample_issue "fields" (VDict [])) "labels" (VList []))
            = Ok s
            /\ cell_of "Labels"
                 (match process_issue sample_issue with Ok r => r | Raise _ => [] end)
               = Some (CVal (VStr s)).
Proof.
  exact (proj1 (row_cells_of_lists sample_issue
                  (match process_issue sample_issue with Ok r => r | Raise _ => [] end)
                  eq_refl)).
Defined.

Lemma get_nested_present (fields : value) (k sub : string) (dflt other x : value) :
  truthy (attr fields k VNone) = true ->
  get_nested fields k sub dflt other = Ok x ->
  x = attr (attr fields k VNone) sub dflt.
Proof.
  intros Ht H. unfold get_nested in H.
  destruct (get fields k VNone) as [c |] eqn:E; [| discriminate H].
  apply get_inv in E as [Hd ->]. cbn [bind] in H. rewrite Ht in H.
  rewrite (get_attr _ _ _ Hd) in H. cbn [bind] in H.
  assert (E : attr fields k (VDict []) = attr fields k VNone).
  { destruct fields as [| | | | | d]; try discriminate.
    unfold attr in *. destruct (lookup k d); [reflexivity | discriminate Ht]. }
  rewrite E in H. now apply get_inv in H as [_ ->].
Qed.

(** X14: a nested scalar that is there (a record, not null and not
    empty) puts its inner attribute in the cell: the name of the issue
    type, status, priority and resolution, the display name of the
    reporter and the assignee, the key of the parent, the count of the
    watches; when the record lacks the inner attribute the cell is the
    empty text (0 for the watches), so a resolution record without a name
    gives the empty text and not [Unresolved]. *)
Theorem row_cells_of_nested_scalars (issue : value) (r : row)
        (Hrow : process_issue issue = Ok r) :
  let fields := attr issue "fields" (VDict []) in
  let cell k sub dflt := Some (CVal (attr (attr fields k VNone) sub dflt)) in
  (truthy (attr fields "issuetype" VNone) = true ->
   cell_of "Type" r = cell "issuetype" "name" (VStr EmptyString))
  /\ (truthy (attr fields "status" VNone) = true ->
      cell_of "Status" r = cell "status" "name" (VStr EmptyString))
  /\ (truthy (attr fields "priority" VNone) = true ->
      cell_of "Priority" r = cell "priority" "name" (VStr EmptyString))
  /\ (truthy (attr fields "reporter" VNone) = true ->
      cell_of "Reporter" r = cell "reporter" "displayName" (VStr EmptyString))
  /\ (truthy (attr fields "assignee" VNone) = true ->
      cell_of "Assignee" r = cell "assignee" "displayName" (VStr EmptyString))
  /\ (truthy (attr fields "resolution" VNone) = true ->
      cell_of "Resolution" r = cell "resolution" "name" (VStr EmptyString))
  /\ (truthy (attr fields "parent" VNone) = true ->
      cell_of "Parent Issue" r = cell "parent" "key" (VStr EmptyString))
  /\ (truthy (attr fields "watches" VNone) = true ->
      cell_of "Watchers" r = cell "watches" "watchCount" (VInt 0)).
Proof.
  invert_process_issue Hrow. cbv zeta.
  repeat split; intros Ht;
    match goal with
    | E : get_nested _ ?k _ _ _ = Ok _ |- cell_of _ _ = _ =>
        match type of Ht with
        | context [k] => apply (get_nested_present _ _ _ _ _ _ Ht) in E; subst
        end
    end; reflexivity.
Qed.

Lemma row_cells_of_nested_scalars_witness :
  cell_of "Resolution"
    (match process_issue sample_resolved_issue with Ok r => r | Raise _ => [] end)
  = Some (CVal (VStr EmptyString)).
Proof.
  exact (proj1 (proj2 (proj2 (proj2 (proj2 (proj2
           (row_cells_of_nested_scalars sample_resolved_issue
              (match process_issue sample_resolved_issue with
               | Ok r => r
               | Raise _ => []
               end) eq_refl))))))
           eq_refl).
Defined.

(** X15: the plain scalars of an issue are copied into the row as they
    are: the key, the description, the dates, the release note and the
    module feature are the field itself when the issue has it, a null
    included, and the empty text (nothing, for the module feature) when it
    has not.  The type, priority, reporter, assignee and parent of an issue
    that has none, or has null there, are the empty text. *)
Theorem row_cells_of_plain_scalars (issue : value) (r : row)
        (Hrow : process_issue issue = Ok r) :
  let fields := attr issue "fields" (VDict []) in
  cell_of "Key" r = Some (CVal (attr issue "key" (VStr EmptyString)))
  /\ cell_of "Description" r = Some (CVal (attr fields "description" (VStr EmptyString)))
  /\ cell_of "Created" r = Some (CVal (attr fields "created" (VStr EmptyString)))
  /\ cell_of "Updated" r = Some (CVal (attr fields "updated" (VStr EmptyString)))
  /\ cell_of "Resolution Date" r
     = Some (CVal (attr fields "resolutiondate" (VStr EmptyString)))
  /\ cell_of "Release Note" r
     = Some (CVal (attr fields "customfield_13570" (VStr EmptyString)))
  /\ cell_of "Due Date" r = Some (CVal (attr fields "duedate" (VStr EmptyString)))
  /\ cell_of "Module-Feature" r = Some (CVal (attr fields "customfield_19850" VNone))
  /\ (has_key "description" fields = true ->
      attr fields "description" VNone = VNone ->
      cell_of "Description" r = Some (CVal VNone))
  /\ (truthy (attr fields "issuetype" VNone) = false ->
      cell_of "Type" r = Some (CVal (VStr EmptyString)))
  /\ (truthy (attr fields "priority" VNone) = false ->
      cell_of "Priority" r = Some (CVal (VStr EmptyString)))
  /\ (truthy (attr fields "reporter" VNone) = false ->
      cell_of "Reporter" r = Some (CVal (VStr EmptyString)))
  /\ (truthy (attr fields "assignee" VNone) = false ->
      cell_of "Assignee" r = Some (CVal (VStr EmptyString)))
  /\ (truthy (attr fields "parent" VNone) = false ->
      cell_of "Parent Issue" r = Some (CVal (VStr EmptyString))).
Proof.
  pose proof (process_issue_defaults issue r Hrow) as D. cbv zeta in D |- *.
  destruct D as (D1 & D2 & D3 & D4 & D5 & D6 & D7 & D8 & D9 & D10
                 & D11 & D12 & D13 & D14 & D15 & D16 & D17 & D18).
  repeat split; try assumption.
  intros Hk Hn. rewrite D3. repeat f_equal.
  destruct (attr issue "fields" (VDict [])) as [| | | | | d]; try discriminate Hk.
  unfold has_key, attr in *. now destruct (lookup "description" d).
Qed.

Lemma row_cells_of_plain_scalars_witness :
  cell_of "Description"
    (match process_issue sample_resolved_issue with Ok r => r | Raise _ => [] end)
  = Some (CVal VNone).
Proof.
  exact (proj1 (proj2 (proj2 (proj2 (proj2 (proj2 (proj2 (proj2 (proj2
           (row_cells_of_plain_scalars sample_resolved_issue
              (match process_issue sample_resolved_issue with
               | Ok r => r
               | Raise _ => []
               end) eq_refl)))))))))
           eq_refl eq_refl).
Defined.

(** X16: null is not accepted everywhere.  An issue whose labels,
    components or worklog are null gives no row: the loop body raises.
    An issue whose versions, fix versions, issue links, subtasks and
    comment are all null gives the row of an issue that has none of
    them. *)
Theorem null_list_fields (issue : value) :
  let fields := attr issue "fields" (VDict []) in
  (attr fields "labels" (VList []) = VNone
   \/ attr fields "components" (VList []) = VNone
   \/ attr fields "worklog" (VDict []) = VNone ->
   exists e : exn, process_issue issue = Raise e)
  /\ (forall key : value,
        process_issue (issue_with_null_lists key) = Ok (bare_row key)).
Proof.
  cbv zeta. split; [| intros key; reflexivity].
  intros H.
  destruct (process_issue issue) as [r | e] eqn:Hrow; [exfalso | now exists e].
  invert_process_issue Hrow.
  destruct H as [H | [H | H]]; rewrite H in *;
    match goal with
    | E : join _ VNone = Ok _ |- _ => discriminate E
    | E : iter VNone = Ok _ |- _ => discriminate E
    | E : is_dict VNone = true |- _ => discriminate E
    end.
Qed.

Lemma null_list_fields_witness :
  exists e : exn, process_issue issue_with_null_labels = Raise e.
Proof.
  exact (proj1 (null_list_fields issue_with_null_labels) (or_introl eq_refl)).
Defined.

(** * The export as a whole *)

Lemma process_issues_total (issues : list value) :
  forallb issue_ok issues = true ->
  exists rows : list row, process_issues issues [] = Ok rows.
Proof.
  induction issues as [| issue issues IH]; intros H; [now exists [] |].
  simpl in H. apply andb_true_iff in H as [Hi His].
  destruct (process_issue_total issue Hi) as [r Hr].
  destruct (IH His) as [rows Hrows].
  exists (r :: rows). rewrite process_issues_cons, Hr. cbn [bind].
  now rewrite Hrows.
Qed.

(** X17: [main] flattens exactly what the fetch returned.  A failed probe
    gives an empty table and no error; a total that is not a number makes
    [main] raise TypeError; otherwise the records fetched, all of them or
    the partial list left by a failed page, give one row each, in order
    and with the columns of the schema, when they have the shape of issue
    records; and whenever rows are produced they are as many as the
    records of the pages received. *)
Theorem main_rows_follow_fetch
        (World : Type) (post : World -> request -> World * response)
        (w : World) (fuel : nat) (sent : list event) (res : result (list row))
        (Hmain : main World post fuel w = Some (sent, res)) :
  (failed (snd (post w CountProbe)) = true -> res = Ok [])
  /\ (count_target None (snd (post w CountProbe)) = Raise TypeError ->
      res = Raise TypeError)
  /\ (forall total : Z,
        count_target None (snd (post w CountProbe)) = Ok (Some total) ->
        (forall rows : list row,
            res = Ok rows ->
            List.length rows = List.length (records (tl sent))
            /\ Forall2 (fun issue r => process_issue issue = Ok r)
                       (records (tl sent)) rows
            /\ Forall (fun r => map fst r = columns) rows)
        /\ (forallb issue_ok (records (tl sent)) = true ->
            exists rows : list row, res = Ok rows)).
Proof.
  unfold main in Hmain.
  destruct (fetch_jira_issues World post fuel w None) as [[sent' fetched] |] eqn:Hrun;
    [| discriminate Hmain].
  injection Hmain as <- <-.
  destruct (fetch_jira_issues_run World post fuel w None sent' fetched Hrun)
    as (pages & E & Hc).
  split; [| split].
  - intros Hf.
    assert (Et : count_target None (snd (post w CountProbe)) = Ok None).
    { destruct (snd (post w CountProbe)) as [| status_code body]; [reflexivity |].
      simpl in Hf. simpl. now rewrite Hf. }
    rewrite Et in Hc. destruct Hc as [_ ->]. reflexivity.
  - intros Et. rewrite Et in Hc. destruct Hc as [_ ->]. reflexivity.
  - intros total Et. rewrite Et in Hc. destruct Hc as [_ ->].
    subst sent'. cbn [tl bind]. split.
    + intros rows Hrows.
      pose proof (proj1 (process_issues_forall2 _ _) Hrows) as HF.
      split; [symmetry; exact (Forall2_length HF) |].
      split; [exact HF |].
      exact (proj1 (process_issues_rows _ _ _ Hrows (Forall_nil _))).
    + intros Hok. exact (process_issues_total _ Hok).
Qed.

Lemma main_rows_follow_fetch_witness :
  exists rows : list row,
    Ok (repeat (bare_row (VStr EmptyString)) 37) = Ok rows.
Proof.
  assert (E : main (list response) scripted 250 short_pages_script
              = Some (short_pages_events,
                      Ok (repeat (bare_row (VStr EmptyString)) 37)))
    by (vm_compute; reflexivity).
  exact (proj2 (proj2 (proj2 (main_rows_follow_fetch (list response) scripted
                                short_pages_script 250%nat short_pages_events _ E))
                      250 eq_refl)
               eq_refl).
Defined.

(** * Further properties of the version and link formatters *)

Lemma strings_of_not_strings (vs : list value) :
  forallb is_string vs = false -> strings_of vs = Raise TypeError.
Proof.
  induction vs as [| v vs IH]; simpl; intros H; [discriminate H |].
  destruct v; try reflexivity.
  simpl in H. rewrite (IH H). reflexivity.
Qed.

(** X18: the version formatters join the names without converting them:
    on a list of version records in which some name is not a str (a
    number, a null, a list) both raise TypeError, wherever that version is
    in the list. *)
Theorem version_names_must_be_strs (versions : list value)
        (Hdicts : forallb is_dict versions = true)
        (Hname : forallb is_string (map version_name versions) = false) :
  process_fix_versions (VList versions) = Raise TypeError
  /\ process__versions (VList versions) = Raise TypeError.
Proof.
  assert (E : process_fix_versions (VList versions) = Raise TypeError).
  { destruct versions as [| v vs]; [discriminate Hname |].
    unfold process_fix_versions.
    change (truthy (VList (v :: vs))) with true.
    change (negb true) with false. cbv iota.
    cbn [iter bind]. rewrite (get_each_dicts _ _ _ Hdicts). cbn [bind].
    unfold join. cbn [iter bind].
    change (map (fun x => attr x "name" (VStr "Unknown")) (v :: vs))
      with (map version_name (v :: vs)).
    now rewrite (strings_of_not_strings _ Hname). }
  split; [exact E | exact E].
Qed.

Lemma version_names_must_be_strs_witness :
  process__versions
    (VList [VDict [("name", VStr "1.0")]; VDict [("name", VInt 2)]])
  = Raise TypeError.
Proof.
  exact (proj2 (version_names_must_be_strs
                  [VDict [("name", VStr "1.0")]; VDict [("name", VInt 2)]]
                  eq_refl eq_refl)).
Defined.

(** X19: the defaults of a link.  A link record that has an outward end
    and no type, or a type without an outward name, is written with the
    relation [relates to]; one that has only an inward end and no inward
    name is written with [is related to by]; and an end that is an empty
    record is written [Unknown [Unknown status] - No summary]. *)
Theorem link_defaults (link : value) (Hok : link_ok link = true) :
  (has_key "outwardIssue" link = true ->
   has_key "outward" (attr link "type" (VDict [])) = false ->
   exists rest : string,
     process_issue_links (VList [link]) = Ok ("outward: relates to " ++ rest))
  /\ (has_key "outwardIssue" link = false ->
      has_key "inwardIssue" link = true ->
      has_key "inward" (attr link "type" (VDict [])) = false ->
      exists rest : string,
        process_issue_links (VList [link]) = Ok ("inward: is related to by " ++ rest))
  /\ (forall (direction : string) (relation : value),
        format_link direction relation (VDict [])
        = Ok (direction ++ ": " ++ py_str relation
                ++ " Unknown [Unknown status] - No summary")).
Proof.
  assert (D : forall v k dflt, has_key k v = false -> attr v k dflt = dflt).
  { intros v k dflt H. destruct v; try reflexivity.
    unfold has_key, attr in *. now destruct (lookup k d). }
  assert (E : process_issue_links (VList [link])
              = Ok (concat nl (link_lines [link])))
    by (apply process_issue_links_ok; simpl; now rewrite Hok).
  split; [| split].
  - intros Ho Ht. rewrite E.
    unfold link_lines, flat_map, link_line, outward_relation, link_text.
    rewrite Ho, (D _ _ _ Ht). eexists. cbn [app concat py_str]. reflexivity.
  - intros Ho Hi Ht. rewrite E.
    unfold link_lines, flat_map, link_line, inward_relation, link_text.
    rewrite Ho, Hi, (D _ _ _ Ht). eexists. cbn [app concat py_str]. reflexivity.
  - intros direction relation. reflexivity.
Qed.

Lemma link_defaults_witness :
  exists rest : string,
    process_issue_links (VList [VDict [("outwardIssue", VDict [])]])
    = Ok ("outward: relates to " ++ rest).
Proof.
  exact (proj1 (link_defaults (VDict [("outwardIssue", VDict [])]) eq_refl)
               eq_refl eq_refl).
Defined.
